(** * Catalog automation engine: validators, metrics and rule-based summary

    A shallow embedding of
      - validators/price_validator.py, sku_validator.py, inventory_validator.py
      - reporting/metrics.py (calculate_metrics, generate_executive_summary)
    together with the theorems that settle the specification's claims.

    Python values are modelled by small inductive types, exceptions by a sum
    type, dicts and sets by stdpp's [gmap] and [gset], [Counter] objects whose
    iteration order matters by association lists, and Python floats by the
    IEEE-754 binary64 instance of the Standard Library's [spec_float]. *)

From Stdlib Require Import ZArith List Ascii String Lia Bool DecimalString.
From Stdlib Require Import Floats.SpecFloat.
From stdpp Require Import base decidable countable gmap strings list sorting.

Local Open Scope string_scope.
Local Open Scope list_scope.
Local Open Scope Z_scope.

(** ** Python values held by a data-frame cell *)

Module Py.

(** Exceptions the modelled built-ins can raise. *)
Inductive exn : Type :=
| ValueError
| TypeError
| OverflowError
| ZeroDivisionError.

(** A computation that returns a value or raises. *)
Definition result (A : Type) : Type := exn + A.

Definition ret {A} (a : A) : result A := inr a.
Definition raise {A} (e : exn) : result A := inl e.
Definition bind {A B} (m : result A) (k : A -> result B) : result B :=
  match m with
  | inl e => inl e
  | inr a => k a
  end.

(** Objects found in the [price], [inventory_count] and [category] cells:
    [str], [int], [float] and [None].  A float is a [spec_float] of the
    binary64 format. *)
Inductive value : Type :=
| VStr (s : string)
| VInt (z : Z)
| VFloat (f : spec_float)
| VNone.

(** The result of arithmetic that mixes [int] and [float]. *)
Inductive number : Type :=
| NInt (z : Z)
| NFloat (f : spec_float).

(** Hashable objects found in the [sku] cells.  [str] and [int] keys compare
    structurally, and a [str] is never equal to an [int]. *)
Inductive key : Type :=
| KStr (s : string)
| KInt (z : Z)
| KNone.

#[global] Instance key_eq_dec : EqDecision key.
Proof. solve_decision. Defined.

Definition key_encode (k : key) : string + Z + unit :=
  match k with
  | KStr s => inl (inl s)
  | KInt z => inl (inr z)
  | KNone => inr tt
  end.

Definition key_decode (x : string + Z + unit) : key :=
  match x with
  | inl (inl s) => KStr s
  | inl (inr z) => KInt z
  | inr _ => KNone
  end.

#[global] Instance key_countable : Countable key.
Proof.
  apply (inj_countable' key_encode key_decode).
  intros []; reflexivity.
Defined.

(** [str(z)] for an [int]. *)
Definition str_of_int (z : Z) : string :=
  DecimalString.NilZero.string_of_int (Z.to_int z).

(** [str(k)] for a sku cell. *)
Definition str (k : key) : string :=
  match k with
  | KStr s => s
  | KInt z => str_of_int z
  | KNone => "None"
  end.

End Py.

(** ** Regular expressions: the fragment of [re] used for sku patterns *)

Module Re.

(** A compiled pattern.  [Bol] is [^], [Eol] is [$], [Digit] is [\d] (on
    ASCII text), [Any] is [.], [Rep n r] is [r{n}]. *)
Inductive regex : Type :=
| Eps
| Chr (c : ascii)
| Digit
| Any
| Bol
| Eol
| Seq (r1 r2 : regex)
| Alt (r1 r2 : regex)
| Star (r : regex)
| Rep (n : nat) (r : regex).

(** A position of the matcher: whether it is still at offset 0, and the text
    that remains. *)
Definition pos : Type := bool * list ascii.

Definition is_digit (c : ascii) : bool :=
  let n := nat_of_ascii c in (48 <=? n)%nat && (n <=? 57)%nat.

Definition newline : ascii := ascii_of_nat 10.

Definition is_newline (c : ascii) : bool := Ascii.eqb c newline.

(** One character consumed when it satisfies [p]. *)
Definition eat (p : ascii -> bool) (st : pos) : list pos :=
  match snd st with
  | c :: rest => if p c then [(false, rest)] else []
  | [] => []
  end.

(** [$] without MULTILINE: at the end of the text, or just before a newline
    that is the last character. *)
Definition at_eol (rest : list ascii) : bool :=
  match rest with
  | [] => true
  | [c] => is_newline c
  | _ => false
  end.

(** Zero or more iterations of [f]; an iteration that consumes nothing is not
    repeated, as in [re]. *)
Fixpoint star_from (f : pos -> list pos) (fuel : nat) (st : pos) : list pos :=
  match fuel with
  | O => [st]
  | S fuel' =>
      st :: flat_map
              (fun st' =>
                 if (length (snd st') <? length (snd st))%nat
                 then star_from f fuel' st' else [])
              (f st)
  end.

Fixpoint rep_from (f : pos -> list pos) (n : nat) (st : pos) : list pos :=
  match n with
  | O => [st]
  | S n' => flat_map (rep_from f n') (f st)
  end.

(** All positions the pattern can reach from [st] (backtracking explores
    every one of them). *)
Fixpoint run (r : regex) (st : pos) : list pos :=
  match r with
  | Eps => [st]
  | Chr c => eat (Ascii.eqb c) st
  | Digit => eat is_digit st
  | Any => eat (fun c => negb (is_newline c)) st
  | Bol => if fst st then [st] else []
  | Eol => if at_eol (snd st) then [st] else []
  | Seq r1 r2 => flat_map (run r2) (run r1 st)
  | Alt r1 r2 => run r1 st ++ run r2 st
  | Star r' => star_from (run r') (length (snd st)) st
  | Rep n r' => rep_from (run r') n st
  end.

Definition chars (s : string) : list ascii := list_ascii_of_string s.

(** [re.match(r, s) is not None]: the pattern matches some prefix of [s],
    starting at offset 0. *)
Definition matches (r : regex) (s : string) : bool :=
  match run r (true, chars s) with
  | [] => false
  | _ :: _ => true
  end.

(** [re.fullmatch(r, s) is not None]: the pattern matches the whole of [s]. *)
Definition fullmatch (r : regex) (s : string) : bool :=
  existsb (fun st => match snd st with [] => true | _ => false end)
          (run r (true, chars s)).

(** The literal text [s] as a pattern. *)
Fixpoint lit (cs : list ascii) : regex :=
  match cs with
  | [] => Eps
  | c :: cs' => Seq (Chr c) (lit cs')
  end.

End Re.

(** ** Records and error records *)

(** A row of the data frame ([row["sku"]], [row["price"]],
    [row["inventory_count"]], [row["category"]]). *)
Record record : Type := mkRecord {
  row_sku : Py.key;
  row_price : Py.value;
  row_inventory_count : Py.value;
  row_category : Py.value
}.

(** A data frame, as [iterrows()] walks it. *)
Definition dataframe : Type := list record.

(** An f-string before rendering: its literal parts and the objects it
    interpolates. *)
Inductive piece : Type :=
| Text (s : string)
| OfKey (k : Py.key)
| OfValue (v : Py.value)
| OfPattern (r : Re.regex)
| Formatted (x : Py.number) (format_spec : string).

(** The error dict [{"sku": ..., "issue_type": ..., "issue_description": ...}]. *)
Record error : Type := mkError {
  sku : Py.key;
  issue_type : string;
  issue_description : list piece
}.

(** [l.append(x)] *)
Definition append {A} (l : list A) (x : A) : list A := l ++ [x].

(** ** [collections.Counter] used for lookups only *)

Module KeyCounter.

(** [c[k]]: a missing key counts 0. *)
Definition get (c : gmap Py.key nat) (k : Py.key) : nat := default 0%nat (c !! k).

Definition add (c : gmap Py.key nat) (k : Py.key) : gmap Py.key nat :=
  <[k := S (get c k)]> c.

(** [Counter(l)] *)
Definition of_list (l : list Py.key) : gmap Py.key nat := foldl add ∅ l.

End KeyCounter.

(** ** validators/sku_validator.py *)

Module SKUValidator.

(** [SKU_PATTERN = r"^SKU-\d{5}$"], compiled. *)
Definition SKU_PATTERN : Re.regex :=
  Re.Seq Re.Bol
    (Re.Seq (Re.lit (Re.chars "SKU-"))
       (Re.Seq (Re.Rep 5 Re.Digit) Re.Eol)).

Record t : Type := mk { sku_pattern : Re.regex }.

(** [__init__(self, sku_pattern=None)] *)
Definition init (sku_pattern : option Re.regex) : t :=
  mk (match sku_pattern with Some p => p | None => SKU_PATTERN end).

Definition format_error (self : t) (k : Py.key) : error :=
  mkError k "invalid_sku_format"
    [Text "SKU '"; OfKey k; Text "' does not match pattern ";
     OfPattern (sku_pattern self)].

Definition duplicate_error (sku_counts : gmap Py.key nat) (k : Py.key) : error :=
  mkError k "duplicate_sku"
    [Text "SKU '"; OfKey k; Text "' appears ";
     OfValue (Py.VInt (Z.of_nat (KeyCounter.get sku_counts k)));
     Text " times in catalog"].

(** The state of the loop: [errors] and [reported_duplicates]. *)
Definition state : Type := list error * gset Py.key.

(** One iteration of [for _, row in dataframe.iterrows()]. *)
Definition body (self : t) (sku_counts : gmap Py.key nat)
    (st : state) (row : record) : state :=
  let '(errors, reported_duplicates) := st in
  let k := row_sku row in
  let errors :=
    if negb (Re.matches (sku_pattern self) (Py.str k))
    then append errors (format_error self k)
    else errors in
  if (1 <? KeyCounter.get sku_counts k)%nat
     && negb (bool_decide (k ∈ reported_duplicates))
  then (append errors (duplicate_error sku_counts k),
        {[k]} ∪ reported_duplicates)
  else (errors, reported_duplicates).

Definition validate (self : t) (df : dataframe) : list error :=
  let sku_column := map row_sku df in
  let sku_counts := KeyCounter.of_list sku_column in
  fst (foldl (body self sku_counts) ([], ∅) df).

End SKUValidator.

(** ** Python floats: IEEE-754 binary64 *)

Module Float.

Definition prec : Z := 53.
Definition emax : Z := 1024.

Definition nan : spec_float := S754_nan.
Definition infinity (s : bool) : spec_float := S754_infinity s.

Definition is_nan (x : spec_float) : bool :=
  match x with S754_nan => true | _ => false end.

Definition is_infinite (x : spec_float) : bool :=
  match x with S754_infinity _ => true | _ => false end.

(** [x <= y], [x < y], [x >= y]: false as soon as an operand is a NaN. *)
Definition leb (x y : spec_float) : bool := SFleb x y.
Definition ltb (x y : spec_float) : bool := SFltb x y.
Definition geb (x y : spec_float) : bool := SFleb y x.

Definition mul (x y : spec_float) : spec_float := SFmul prec emax x y.

(** The integer [z], rounded to nearest even. *)
Definition of_Z (z : Z) : spec_float := binary_normalize prec emax z 0 false.

(** The quotient [p / q] of two positive integers with sign [s], rounded to
    nearest even. *)
Definition of_ratio (s : bool) (p q : positive) : spec_float :=
  let '(mz, ez, lz) := SFdiv_core_binary prec emax (Zpos p) 0 (Zpos q) 0 in
  binary_round_aux prec emax s mz ez lz.

(** [m * 10^e] with sign [s], rounded to nearest even: the value of a decimal
    literal. *)
Definition of_decimal (s : bool) (m : Z) (e : Z) : spec_float :=
  match m with
  | Zpos p =>
      match e with
      | Zneg k => of_ratio s p (Pos.pow 10 k)
      | _ => binary_normalize prec emax
               (if s then Z.opp (m * 10 ^ e) else m * 10 ^ e) 0 s
      end
  | _ => S754_zero s
  end.

(** [int(x)] for a finite [x]: truncation towards zero. *)
Definition trunc (x : spec_float) : Z :=
  match x with
  | S754_finite s m e =>
      let a := match e with
               | Zneg k => Z.shiftr (Zpos m) (Zpos k)
               | _ => Z.shiftl (Zpos m) e
               end in
      if s then Z.opp a else a
  | _ => 0
  end.

End Float.

(** ** The built-ins [int()] and [float()] on cell values (ASCII text) *)

Module Builtins.

Import Py.

(** Characters that [int()] and [float()] strip from both ends of an ASCII
    text: tab, newline, vertical tab, form feed, carriage return, space. *)
Definition is_space (c : ascii) : bool :=
  let n := nat_of_ascii c in
  ((9 <=? n)%nat && (n <=? 13)%nat) || (n =? 32)%nat.

Fixpoint lstrip (l : list ascii) : list ascii :=
  match l with
  | c :: l' => if is_space c then lstrip l' else l
  | [] => []
  end.

Definition strip (l : list ascii) : list ascii :=
  rev (lstrip (rev (lstrip l))).

Definition digit_value (c : ascii) : Z := Z.of_nat (nat_of_ascii c) - 48.

Definition is_underscore (c : ascii) : bool := Ascii.eqb c "_"%char.

(** The rest of a [digitpart]: digits, each possibly preceded by one
    underscore.  Returns the digits read and the text left. *)
Fixpoint digits_tail (l : list ascii) : list Z * list ascii :=
  match l with
  | c :: l' =>
      if Re.is_digit c then
        let '(ds, rest) := digits_tail l' in (digit_value c :: ds, rest)
      else if is_underscore c then
        match l' with
        | c' :: l'' =>
            if Re.is_digit c' then
              let '(ds, rest) := digits_tail l'' in (digit_value c' :: ds, rest)
            else ([], l)
        | [] => ([], l)
        end
      else ([], l)
  | [] => ([], [])
  end.

(** [digitpart ::= digit (["_"] digit)*] *)
Definition digitpart (l : list ascii) : option (list Z * list ascii) :=
  match l with
  | c :: l' =>
      if Re.is_digit c then
        let '(ds, rest) := digits_tail l' in Some (digit_value c :: ds, rest)
      else None
  | [] => None
  end.

Definition number_of_digits (ds : list Z) : Z :=
  fold_left (fun acc d => 10 * acc + d) ds 0.

(** An optional sign: [true] for "-". *)
Definition sign (l : list ascii) : bool * list ascii :=
  match l with
  | "-"%char :: l' => (true, l')
  | "+"%char :: l' => (false, l')
  | _ => (false, l)
  end.

(** [int(s)] in base 10: [None] stands for [ValueError].  The limit the
    interpreter puts on the number of digits is not modelled. *)
Definition int_of_str (s : string) : option Z :=
  let '(neg, l) := sign (strip (Re.chars s)) in
  match digitpart l with
  | Some (ds, []) =>
      let n := number_of_digits ds in Some (if neg then - n else n)
  | _ => None
  end.

(** [int(v)] *)
Definition int (v : value) : result Z :=
  match v with
  | VInt z => ret z
  | VFloat S754_nan => raise ValueError
  | VFloat (S754_infinity _) => raise OverflowError
  | VFloat f => ret (Float.trunc f)
  | VStr s =>
      match int_of_str s with
      | Some z => ret z
      | None => raise ValueError
      end
  | VNone => raise TypeError
  end.

Definition lower (c : ascii) : ascii :=
  let n := nat_of_ascii c in
  if (65 <=? n)%nat && (n <=? 90)%nat then ascii_of_nat (n + 32) else c.

Definition is_char (x : ascii) (c : ascii) : bool := Ascii.eqb c x.

(** [number ::= [digitpart] "." digitpart | digitpart ["."]]: the integer and
    fraction digits. *)
Definition number (l : list ascii) : option (list Z * list Z * list ascii) :=
  match digitpart l with
  | Some (ds, "."%char :: rest) =>
      match digitpart rest with
      | Some (fs, rest') => Some (ds, fs, rest')
      | None => Some (ds, [], rest)
      end
  | Some (ds, rest) => Some (ds, [], rest)
  | None =>
      match l with
      | "."%char :: rest =>
          match digitpart rest with
          | Some (fs, rest') => Some ([], fs, rest')
          | None => None
          end
      | _ => None
      end
  end.

(** [exponent ::= ("e" | "E") [sign] digitpart], taken to the end of the
    text; no exponent is exponent 0. *)
Definition exponent (l : list ascii) : option Z :=
  match l with
  | [] => Some 0
  | c :: l' =>
      if is_char "e"%char (lower c) then
        let '(neg, l'') := sign l' in
        match digitpart l'' with
        | Some (ds, []) =>
            let n := number_of_digits ds in Some (if neg then - n else n)
        | _ => None
        end
      else None
  end.

(** [float(s)]: [None] stands for [ValueError]. *)
Definition float_of_str (s : string) : option spec_float :=
  let '(neg, l) := sign (strip (Re.chars s)) in
  let word := string_of_list_ascii (map lower l) in
  if String.eqb word "nan" then Some Float.nan
  else if String.eqb word "inf" || String.eqb word "infinity"
  then Some (Float.infinity neg)
  else
    match number l with
    | Some (ds, fs, rest) =>
        match exponent rest with
        | Some e =>
            Some (Float.of_decimal neg (number_of_digits (ds ++ fs))
                    (e - Z.of_nat (length fs)))
        | None => None
        end
    | None => None
    end.

(** [float(v)] *)
Definition float (v : value) : result spec_float :=
  match v with
  | VFloat f => ret f
  | VInt z =>
      let f := Float.of_Z z in
      if Float.is_infinite f then raise OverflowError else ret f
  | VStr s =>
      match float_of_str s with
      | Some f => ret f
      | None => raise ValueError
      end
  | VNone => raise TypeError
  end.

End Builtins.

(** A [for] loop whose body may raise: the first exception leaves the loop. *)
Fixpoint for_each {A S} (body : S -> A -> Py.result S) (l : list A) (st : S)
  : Py.result S :=
  match l with
  | [] => Py.ret st
  | x :: l' => Py.bind (body st x) (for_each body l')
  end.

(** ** validators/inventory_validator.py *)

Module InventoryValidator.

Definition MIN_INVENTORY : Z := 0.
Definition LOW_STOCK_THRESHOLD : Z := 5.

Record t : Type := mk { min_inventory : Z; low_stock_threshold : Z }.

(** [__init__(self, min_inventory=None, low_stock_threshold=None)] *)
Definition init (min_inventory low_stock_threshold : option Z) : t :=
  mk (match min_inventory with Some m => m | None => MIN_INVENTORY end)
     (match low_stock_threshold with Some m => m | None => LOW_STOCK_THRESHOLD end).

Definition format_error (row : record) : error :=
  mkError (row_sku row) "invalid_inventory_format"
    [Text "Inventory '"; OfValue (row_inventory_count row);
     Text "' is not a valid integer"].

Definition negative_error (row : record) (inventory_value : Z) : error :=
  mkError (row_sku row) "negative_inventory"
    [Text "Inventory "; OfValue (Py.VInt inventory_value);
     Text " cannot be negative"].

Definition low_stock_error (self : t) (row : record) (inventory_value : Z) : error :=
  mkError (row_sku row) "low_stock_warning"
    [Text "Inventory "; OfValue (Py.VInt inventory_value);
     Text " is below threshold of "; OfValue (Py.VInt (low_stock_threshold self))].

(** One iteration of the loop.  [except (ValueError, TypeError)] handles
    these two exceptions only; any other one propagates. *)
Definition body (self : t) (errors : list error) (row : record)
  : Py.result (list error) :=
  match Builtins.int (row_inventory_count row) with
  | inl Py.ValueError | inl Py.TypeError =>
      Py.ret (append errors (format_error row))
  | inl e => Py.raise e
  | inr inventory_value =>
      if (inventory_value <? min_inventory self)%Z
      then Py.ret (append errors (negative_error row inventory_value))
      else if (inventory_value <? low_stock_threshold self)%Z
      then Py.ret (append errors (low_stock_error self row inventory_value))
      else Py.ret errors
  end.

Definition validate (self : t) (df : dataframe) : Py.result (list error) :=
  for_each (body self) df [].

End InventoryValidator.

(** ** validators/price_validator.py *)

Module PriceValidator.

(** [MIN_PRICE = 0.01], [MAX_PRICE = 9999.99] *)
Definition MIN_PRICE : spec_float := Float.of_decimal false 1 (-2).
Definition MAX_PRICE : spec_float := Float.of_decimal false 999999 (-2).

Record t : Type := mk { min_price : spec_float; max_price : spec_float }.

(** [__init__(self, min_price=None, max_price=None)] *)
Definition init (min_price max_price : option spec_float) : t :=
  mk (match min_price with Some m => m | None => MIN_PRICE end)
     (match max_price with Some m => m | None => MAX_PRICE end).

Definition format_error (row : record) : error :=
  mkError (row_sku row) "invalid_price_format"
    [Text "Price '"; OfValue (row_price row); Text "' is not a valid number"].

Definition too_low_error (self : t) (row : record) (price_value : spec_float) : error :=
  mkError (row_sku row) "price_too_low"
    [Text "Price "; OfValue (Py.VFloat price_value);
     Text " must be > "; OfValue (Py.VFloat (min_price self))].

Definition too_high_error (self : t) (row : record) (price_value : spec_float) : error :=
  mkError (row_sku row) "price_too_high"
    [Text "Price "; OfValue (Py.VFloat price_value);
     Text " must be < "; OfValue (Py.VFloat (max_price self))].

(** One iteration of the loop. *)
Definition body (self : t) (errors : list error) (row : record)
  : Py.result (list error) :=
  match Builtins.float (row_price row) with
  | inl Py.ValueError | inl Py.TypeError =>
      Py.ret (append errors (format_error row))
  | inl e => Py.raise e
  | inr price_value =>
      if Float.leb price_value (min_price self)
      then Py.ret (append errors (too_low_error self row price_value))
      else if Float.geb price_value (max_price self)
      then Py.ret (append errors (too_high_error self row price_value))
      else Py.ret errors
  end.

Definition validate (self : t) (df : dataframe) : Py.result (list error) :=
  for_each (body self) df [].

End PriceValidator.

(** ** validators/base_validator.py: the interface of the three validators *)

Module BaseValidator.

(** [validate(self, dataframe)] returns a list of error dicts. *)
Class Validator (V : Type) : Type :=
  validate : V -> dataframe -> Py.result (list error).

End BaseValidator.

#[global] Instance price_validator : BaseValidator.Validator PriceValidator.t :=
  PriceValidator.validate.

#[global] Instance sku_validator : BaseValidator.Validator SKUValidator.t :=
  fun self df => Py.ret (SKUValidator.validate self df).

#[global] Instance inventory_validator :
  BaseValidator.Validator InventoryValidator.t :=
  InventoryValidator.validate.

(** ** Arithmetic on [int] and [float] *)

Module Num.

Import Py.

(** [len(l)] *)
Definition len {A} (l : list A) : Z := Z.of_nat (length l).

(** [a / b] on two [int]s: the correctly rounded quotient. *)
Definition truediv (a b : Z) : result spec_float :=
  match b with
  | Z0 => raise ZeroDivisionError
  | _ =>
      let s := xorb (a <? 0)%Z (b <? 0)%Z in
      match a with
      | Z0 => ret (S754_zero s)
      | _ =>
          let q := Float.of_ratio s (Z.to_pos (Z.abs a)) (Z.to_pos (Z.abs b)) in
          if Float.is_infinite q then raise OverflowError else ret q
      end
  end.

(** [num / den] rounded to the nearest integer, ties to even
    ([0 <= num], [0 < den]). *)
Definition round_half_even (num den : Z) : Z :=
  let q := num / den in
  match (2 * (num mod den) ?= den)%Z with
  | Lt => q
  | Gt => q + 1
  | Eq => if Z.even q then q else q + 1
  end.

(** [round(x, 2)] on a [float]: the decimal with two fraction digits nearest
    to the exact value of [x] (ties to even), read back as a float. *)
Definition round2_float (x : spec_float) : result spec_float :=
  match x with
  | S754_finite s m e =>
      let n :=
        match e with
        | Zneg k => round_half_even (Zpos m * 100) (2 ^ Zpos k)
        | _ => Zpos m * 2 ^ e * 100
        end in
      let r := Float.of_decimal s n (-2) in
      if Float.is_infinite r then raise OverflowError else ret r
  | _ => ret x
  end.

(** [round(x, 2)]; an [int] is returned unchanged. *)
Definition round2 (x : number) : result number :=
  match x with
  | NInt z => ret (NInt z)
  | NFloat f => bind (round2_float f) (fun r => ret (NFloat r))
  end.

(** [x >= c] and [x < c] for an [int] constant [c] that a float holds
    exactly. *)
Definition geb_int (x : number) (c : Z) : bool :=
  match x with
  | NInt z => (c <=? z)%Z
  | NFloat f => Float.geb f (Float.of_Z c)
  end.

Definition ltb_int (x : number) (c : Z) : bool :=
  match x with
  | NInt z => (z <? c)%Z
  | NFloat f => Float.ltb f (Float.of_Z c)
  end.

(** Whether a format specification ends with the presentation type [f]. *)
Definition is_fixed_point (format_spec : string) : bool :=
  match rev (list_ascii_of_string format_spec) with
  | "f"%char :: _ => true
  | _ => false
  end.

(** [format(x, format_spec)], as far as it can fail: with the presentation
    type [f] an [int] is converted to a float first, which raises
    [OverflowError] beyond the float range.  The text is not rendered. *)
Definition format (x : number) (format_spec : string) : result unit :=
  match x with
  | NInt z =>
      if is_fixed_point format_spec && Float.is_infinite (Float.of_Z z)
      then raise OverflowError else ret tt
  | NFloat _ => ret tt
  end.

End Num.

(** ** [collections.Counter] over issue types, in insertion order *)

Module IssueCounter.

(** A counter is the list of its items, in the order the keys were first
    inserted. *)

(** [c[k] += 1] *)
Fixpoint add (c : list (string * nat)) (k : string) : list (string * nat) :=
  match c with
  | [] => [(k, 1%nat)]
  | (k', n) :: c' =>
      if decide (k' = k) then (k', S n) :: c' else (k', n) :: add c' k
  end.

(** [Counter(l)] *)
Definition of_list (l : list string) : list (string * nat) := foldl add [] l.

(** [x] placed before the first item whose count is not greater. *)
Fixpoint insert (x : string * nat) (l : list (string * nat)) : list (string * nat) :=
  match l with
  | [] => [x]
  | y :: l' =>
      if (snd x <? snd y)%nat then y :: insert x l' else x :: y :: l'
  end.

(** [sorted(items, key=itemgetter(1), reverse=True)]: stable, so items with
    equal counts keep their order. *)
Fixpoint sorted_by_count (l : list (string * nat)) : list (string * nat) :=
  match l with
  | [] => []
  | x :: l' => insert x (sorted_by_count l')
  end.

(** [c.most_common(n)] *)
Definition most_common (n : nat) (c : list (string * nat)) : list (string * nat) :=
  take n (sorted_by_count c).

End IssueCounter.

(** ** reporting/metrics.py *)

Module Metrics.

Import Py Num.

Record metrics : Type := mkMetrics {
  total_records : Z;
  valid_records : Z;
  invalid_records : Z;
  data_integrity_score : number;
  total_errors : Z;
  top_5_issues : list (string * nat)
}.

(** [set(err["sku"] for err in validation_errors)] *)
Definition sku_set (validation_errors : list error) : gset Py.key :=
  foldl (fun s err => {[sku err]} ∪ s) ∅ validation_errors.

Definition calculate_metrics (validation_errors : list error) (total_records : Z)
  : result metrics :=
  let invalid_records := Z.of_nat (size (sku_set validation_errors)) in
  let valid_records := total_records - invalid_records in
  bind (if (0 <? total_records)%Z
        then bind (truediv valid_records total_records)
               (fun q => ret (NFloat (Float.mul q (Float.of_Z 100))))
        else ret (NInt 0))
    (fun data_integrity_score =>
       let issue_counter := IssueCounter.of_list (map issue_type validation_errors) in
       let top_5_issues := IssueCounter.most_common 5 issue_counter in
       bind (round2 data_integrity_score)
         (fun rounded =>
            ret (mkMetrics total_records valid_records invalid_records rounded
                   (len validation_errors) top_5_issues))).

End Metrics.

(** ** The rule-based summary of reporting/metrics.py *)

Module Summary.

Import Py Num Metrics.

Definition is_upper (c : ascii) : bool :=
  let n := nat_of_ascii c in (65 <=? n)%nat && (n <=? 90)%nat.

Definition is_lower (c : ascii) : bool :=
  let n := nat_of_ascii c in (97 <=? n)%nat && (n <=? 122)%nat.

Definition upper (c : ascii) : ascii :=
  if is_lower c then ascii_of_nat (nat_of_ascii c - 32) else c.

(** [s.replace('_', ' ')] *)
Definition replace_underscores (l : list ascii) : list ascii :=
  map (fun c => if Builtins.is_underscore c then " "%char else c) l.

(** [s.title()]: a cased character is upper-cased after an uncased one and
    lower-cased after a cased one. *)
Fixpoint title_from (previous_is_cased : bool) (l : list ascii) : list ascii :=
  match l with
  | [] => []
  | c :: l' =>
      if is_upper c || is_lower c
      then (if previous_is_cased then Builtins.lower c else upper c)
             :: title_from true l'
      else c :: title_from false l'
  end.

Definition readable (issue_type : string) : string :=
  string_of_list_ascii (title_from false (replace_underscores (Re.chars issue_type))).

(** [(x / y * 100) if y > 0 else 0] *)
Definition percentage (x y : Z) : result number :=
  if (0 <? y)%Z
  then bind (truediv x y) (fun q => ret (NFloat (Float.mul q (Float.of_Z 100))))
  else ret (NInt 0).

(** [int(pct)] *)
Definition int_of_number (x : number) : result Z :=
  match x with
  | NInt z => ret z
  | NFloat f => Builtins.int (VFloat f)
  end.

(** The health status and verb chosen from the score. *)
Definition health (score : number) : string * string :=
  if geb_int score 90 then ("excellent", "demonstrates")
  else if geb_int score 75 then ("good", "shows")
  else if geb_int score 50 then ("fair", "indicates")
  else ("poor", "reveals").

(** [f"{readable_issue} ({int(pct)}%)"] for one of the top issues. *)
Definition issue_name (errors : Z) (issue : string * nat) : result (list piece) :=
  let '(issue_type, count) := issue in
  bind (percentage (Z.of_nat count) errors) (fun pct =>
  bind (int_of_number pct) (fun n =>
  ret [Text (readable issue_type); Text " ("; OfValue (VInt n); Text "%)"])).

(** The loop over [top_3_issues] that fills [issue_names]. *)
Definition issue_names (errors : Z) (top_3_issues : list (string * nat))
  : result (list (list piece)) :=
  for_each (fun names issue =>
              bind (issue_name errors issue) (fun name => ret (append names name)))
           top_3_issues [].

(** [', '.join(names)] *)
Fixpoint join_comma (names : list (list piece)) : list piece :=
  match names with
  | [] => []
  | [n] => n
  | n :: names' => n ++ Text ", " :: join_comma names'
  end.

Definition top_issues_text (errors : Z) (top_issues : list (string * nat))
  : result (list piece) :=
  match top_issues with
  | [] => ret [Text "no validation errors were identified"]
  | _ =>
      bind (issue_names errors (take 3 top_issues)) (fun names =>
      match names with
      | [n0] => ret (Text "driven by " :: n0)
      | [n0; n1] => ret (Text "primarily driven by " :: n0 ++ Text " and " :: n1)
      | _ =>
          ret (Text "primarily driven by " :: join_comma (removelast names)
                 ++ Text ", and " :: List.last names [])
      end)
  end.

(** Evaluating an f-string: its fields are formatted from left to right, the
    first one that raises ending the evaluation; the pieces themselves are
    kept as they are. *)
Definition format_piece (p : piece) : result piece :=
  match p with
  | Formatted x format_spec => bind (format x format_spec) (fun _ => ret p)
  | _ => ret p
  end.

Fixpoint fstring (pieces : list piece) : result (list piece) :=
  match pieces with
  | [] => ret []
  | p :: rest =>
      bind (format_piece p) (fun p' =>
      bind (fstring rest) (fun rest' => ret (p' :: rest')))
  end.

(** The pieces of the four paragraphs. *)
Definition paragraph_perfect (total : Z) (score : number) : list piece :=
  [Text "Analysis of "; Formatted (NInt total) ",";
   Text " catalog records identified no data integrity issues. All products passed validation with a perfect ";
   Formatted score ".1f";
   Text "% integrity score. The catalog is production-ready without requiring remediation."].

Definition paragraph_minor (total invalid : Z) (invalid_pct score : number)
    (health_status health_verb : string) (issues : list piece) : list piece :=
  [Text "Analysis of "; Formatted (NInt total) ",";
   Text " catalog records identified "; Formatted invalid_pct ".1f";
   Text "% data integrity issues ("; Formatted (NInt invalid) ",";
   Text " records), "] ++ issues ++
  [Text ". With a "; Text health_status; Text " integrity score of ";
   Formatted score ".1f"; Text "%, the catalog "; Text health_verb;
   Text " strong data quality suitable for production use with minimal remediation required."].

Definition paragraph_moderate (total invalid : Z) (invalid_pct score : number)
    (health_status health_verb : string) (issues : list piece) : list piece :=
  [Text "Analysis of "; Formatted (NInt total) ",";
   Text " catalog records identified "; Formatted invalid_pct ".1f";
   Text "% data integrity issues ("; Formatted (NInt invalid) ",";
   Text " records), "] ++ issues ++
  [Text ". The "; Text health_status; Text " integrity score of ";
   Formatted score ".1f"; Text "% "; Text health_verb;
   Text " moderate data quality concerns. Recommended immediate action includes deduplication efforts and category standardization to improve catalog quality."].

Definition paragraph_significant (total invalid : Z) (invalid_pct score : number)
    (health_status : string) (issues : list piece) : list piece :=
  [Text "Analysis of "; Formatted (NInt total) ",";
   Text " catalog records identified significant data integrity issues affecting ";
   Formatted invalid_pct ".1f"; Text "% of records (";
   Formatted (NInt invalid) ","; Text " records), "] ++ issues ++
  [Text ". With a "; Text health_status; Text " integrity score of ";
   Formatted score ".1f";
   Text "%, urgent remediation is required. Priority actions include resolving duplicate SKUs, standardizing missing fields, and implementing upstream validation to prevent future data quality degradation."].

Definition generate_executive_summary (m : metrics) : result (list piece) :=
  let total := total_records m in
  let invalid := invalid_records m in
  let score := data_integrity_score m in
  let errors := total_errors m in
  let top_issues := top_5_issues m in
  bind (percentage invalid total) (fun invalid_pct =>
  let '(health_status, health_verb) := health score in
  bind (top_issues_text errors top_issues) (fun issues =>
  if (invalid =? 0)%Z then fstring (paragraph_perfect total score)
  else if ltb_int invalid_pct 5
  then fstring (paragraph_minor total invalid invalid_pct score
                  health_status health_verb issues)
  else if ltb_int invalid_pct 15
  then fstring (paragraph_moderate total invalid invalid_pct score
                  health_status health_verb issues)
  else fstring (paragraph_significant total invalid invalid_pct score
                  health_status issues))).

End Summary.

(** ** main.py: the validation stage and the metrics computed from it *)

Module Main.

(** Stage 2: the three validators with their default configuration, their
    errors merged in the order price, sku, inventory. *)
Definition all_errors (df : dataframe) : Py.result (list error) :=
  Py.bind (BaseValidator.validate (PriceValidator.init None None) df)
    (fun price_errors =>
  Py.bind (BaseValidator.validate (SKUValidator.init None) df)
    (fun sku_errors =>
  Py.bind (BaseValidator.validate (InventoryValidator.init None None) df)
    (fun inv_errors =>
  Py.ret (price_errors ++ sku_errors ++ inv_errors)))).

(** Stage 3: [calculate_metrics(all_errors, len(df))]. *)
Definition metrics (df : dataframe) : Py.result Metrics.metrics :=
  Py.bind (all_errors df)
    (fun errors => Metrics.calculate_metrics errors (Num.len df)).

End Main.

(** ** reporting/metrics.py: the legacy [compute_basic_metrics] *)

Module BasicMetrics.

(** [bool(v)] for a cell value. *)
Definition truthy (v : Py.value) : bool :=
  match v with
  | Py.VStr s => negb (String.eqb s "")
  | Py.VInt z => negb (z =? 0)
  | Py.VFloat (S754_zero _) => false
  | Py.VFloat _ => true
  | Py.VNone => false
  end.

(** An element of [results]: a tuple, or [None]. *)
Inductive entry : Type :=
| ENone
| ETuple (items : list Py.value).

(** [r and r[0]], as a condition. *)
Definition is_pass (r : entry) : bool :=
  match r with
  | ETuple (first :: _) => truthy first
  | _ => false
  end.

(** The dict [{"total": ..., "passed": ..., "failed": ...}]. *)
Record basic : Type := mkBasic { total : Z; passed : Z; failed : Z }.

(** One iteration of [for r in results]. *)
Definition body (st : basic) (r : entry) : basic :=
  let total := total st + 1 in
  if is_pass r
  then mkBasic total (passed st + 1) (failed st)
  else mkBasic total (passed st) (failed st + 1).

Definition compute_basic_metrics (results : list entry) : basic :=
  foldl body (mkBasic 0 0 0) results.

End BasicMetrics.

(** ** reporting/metrics.py: [print_dashboard] *)

Module Dashboard.

Import Py Num.

(** A part of a printed line: literal text, a number or a string under a
    format specification. *)
Inductive item : Type :=
| Lit (s : string)
| FmtNum (x : number) (format_spec : string)
| FmtStr (s : string) (format_spec : string).

(** The argument of one [print] call. *)
Definition line : Type := list item.

(** [s * n]: empty when [n <= 0]. *)
Definition str_mul (s : string) (n : Z) : string :=
  String.concat "" (repeat s (Z.to_nat n)).

Definition nl : string := String Re.newline "".

(** [x / 5] *)
Definition div5 (x : number) : result spec_float :=
  match x with
  | NInt z => truediv z 5
  | NFloat f => ret (SFdiv Float.prec Float.emax f (Float.of_Z 5))
  end.

(** [int(x / 5)] *)
Definition int_div5 (x : number) : result Z :=
  bind (div5 x) (fun q => Builtins.int (VFloat q)).

(** Evaluating the f-string of a printed line: its fields are formatted from
    left to right; the items themselves are kept as they are. *)
Definition format_item (i : item) : result item :=
  match i with
  | FmtNum x format_spec => bind (format x format_spec) (fun _ => ret i)
  | _ => ret i
  end.

Fixpoint fstring (items : line) : result line :=
  match items with
  | [] => ret []
  | i :: rest =>
      bind (format_item i) (fun i' =>
      bind (fstring rest) (fun rest' => ret (i' :: rest')))
  end.

(** [unit * int(x / 5) + "-" * (width - int(x / 5))]; the source evaluates
    [int(x / 5)] twice. *)
Definition bar (width : Z) (x : number) : result string :=
  bind (int_div5 x) (fun n =>
  bind (int_div5 x) (fun n' =>
  ret (str_mul "#" n ++ str_mul "-" (width - n'))%string)).



(** The line printed for one of the top issues. *)
Definition issue_line (total_errors : Z) (idx : Z) (issue : string * nat)
  : result line :=
  let '(issue_type, count) := issue in
  bind (Summary.percentage (Z.of_nat count) total_errors) (fun percentage =>
  bind (bar 10 percentage) (fun issue_bar =>
  fstring [Lit "  "; FmtNum (NInt idx) ""; Lit ". "; FmtStr issue_type "<30";
           Lit " "; FmtNum (NInt (Z.of_nat count)) ">6"; Lit " (";
           FmtNum percentage ">5.1f"; Lit "%)  ["; Lit issue_bar; Lit "]"])).






End Dashboard.

(** ** ai/llm_summary.py: the prompt and the handling of the response *)

Module Ai.

(** Values of the dicts handed to [generate_ai_summary] and of the response:
    numbers, strings, lists, tuples, [None], dicts with string keys (their
    items, keys distinct) and objects with attributes. *)
#[warnings="-register-all"]
Inductive obj : Type :=
| ONum (x : Py.number)
| OStr (s : string)
| OList (items : list obj)
| OTuple (items : list obj)
| ONone
| ODict (items : list (string * obj))
| OObject (attributes : list (string * obj)).

Inductive exn : Type :=
| RuntimeError (message : string)
| KeyError
| IndexError
| TypeError
| AttributeError
| Raised (by_client : string).

Definition result (A : Type) : Type := exn + A.

Definition bind {A B} (m : result A) (k : A -> result B) : result B :=
  match m with
  | inl e => inl e
  | inr a => k a
  end.

(** An f-string before rendering. *)
Inductive piece : Type :=
| Lit (s : string)
| Str (o : obj).

(** [d.get(key, default)] on a [dict]. *)
Definition get (d : gmap string obj) (key : string) (default_value : obj) : obj :=
  default default_value (d !! key).

Fixpoint lookup_item (key : string) (items : list (string * obj)) : option obj :=
  match items with
  | [] => None
  | (k, v) :: items' => if String.eqb k key then Some v else lookup_item key items'
  end.

(** [bool(o)] *)
Definition truthy (o : obj) : bool :=
  match o with
  | ONum (Py.NInt z) => negb (z =? 0)
  | ONum (Py.NFloat (S754_zero _)) => false
  | ONum (Py.NFloat _) => true
  | OStr s => negb (String.eqb s "")
  | OList items | OTuple items => match items with [] => false | _ => true end
  | ONone => false
  | ODict items => match items with [] => false | _ => true end
  | OObject _ => true
  end.

(** [o[0]] *)
Definition first_item (o : obj) : result obj :=
  match o with
  | OList (x :: _) | OTuple (x :: _) => inr x
  | OList [] | OTuple [] => inl IndexError
  | OStr (String c _) => inr (OStr (String c ""))
  | OStr EmptyString => inl IndexError
  | ODict _ => inl KeyError
  | _ => inl TypeError
  end.

(** [o[key]] for a string [key] *)
Definition subscript (o : obj) (key : string) : result obj :=
  match o with
  | ODict items =>
      match lookup_item key items with
      | Some v => inr v
      | None => inl KeyError
      end
  | _ => inl TypeError
  end.

(** [o.name] *)
Definition attribute (o : obj) (name : string) : result obj :=
  match o with
  | OObject attributes =>
      match lookup_item name attributes with
      | Some v => inr v
      | None => inl AttributeError
      end
  | _ => inl AttributeError
  end.

(** Characters [str.strip()] removes from an ASCII text. *)
Definition is_space (c : ascii) : bool :=
  let n := nat_of_ascii c in
  ((9 <=? n)%nat && (n <=? 13)%nat) || ((28 <=? n)%nat && (n <=? 32)%nat).

Fixpoint lstrip (l : list ascii) : list ascii :=
  match l with
  | c :: l' => if is_space c then lstrip l' else l
  | [] => []
  end.

Definition strip (s : string) : string :=
  string_of_list_ascii (rev (lstrip (rev (lstrip (list_ascii_of_string s))))).

(** [content.strip()] *)
Definition strip_content (content : obj) : result string :=
  match content with
  | OStr s => inr (strip s)
  | OObject attributes =>
      match lookup_item "strip" attributes with
      | Some _ => inl TypeError
      | None => inl AttributeError
      end
  | _ => inl AttributeError
  end.

(** Lines 17 to 37: the six values read from the dicts and the prompt. *)
Definition build_prompt (metrics sql_insights validation_summary : gmap string obj)
  : list piece :=
  let total_records := get metrics "total_records" (OStr "unknown") in
  let invalid_pct := get metrics "invalid_pct" (OStr "unknown") in
  let top_issues := get validation_summary "top_issue_types" (OStr "none reported") in
  let duplicate_sku := get sql_insights "duplicate_sku_count" (ONum (Py.NInt 0)) in
  let high_price := get sql_insights "high_price_anomalies" (ONum (Py.NInt 0)) in
  let low_inv := get sql_insights "low_inventory_warnings" (ONum (Py.NInt 0)) in
  [Lit "You are an executive-level business analyst. Based on the following dataset metadata, prepare a concise, professional paragraph suitable for senior leadership:";
   Lit (Dashboard.nl ++ Dashboard.nl ++ "- Total records: ")%string;
   Str total_records;
   Lit (Dashboard.nl ++ "- Invalid record percentage: ")%string;
   Str invalid_pct;
   Lit ("%" ++ Dashboard.nl ++ "- Top issue types: ")%string;
   Str top_issues;
   Lit (Dashboard.nl ++ "- Duplicate SKU count: ")%string;
   Str duplicate_sku;
   Lit (Dashboard.nl ++ "- High price anomalies: ")%string;
   Str high_price;
   Lit (Dashboard.nl ++ "- Low inventory warnings: ")%string;
   Str low_inv;
   Lit (Dashboard.nl ++ Dashboard.nl ++ "Your summary should address overall data integrity, primary risk drivers, operational impact, and suggested remediation focus areas. Keep the tone appropriate for a senior leadership audience.")%string].

(** [api_key or os.getenv("OPENAI_API_KEY")] *)
Definition select_key (api_key getenv : option string) : option string :=
  match api_key with
  | Some k => if String.eqb k "" then getenv else Some k
  | None => getenv
  end.

(** Lines 52 to 65: the text taken from the response. *)
Definition extract_content (resp : obj) : result string :=
  let choices :=
    match resp with
    | ODict items => default (OList []) (lookup_item "choices" items)
    | OObject attributes => default (OList []) (lookup_item "choices" attributes)
    | _ => OList []
    end in
  if negb (truthy choices)
  then inl (RuntimeError "No completion choices returned from OpenAI")
  else
    bind (first_item choices) (fun first =>
    bind (match first with
          | ODict _ => bind (subscript first "message")
                         (fun message => subscript message "content")
          | _ => bind (attribute first "message")
                   (fun message => subscript message "content")
          end) strip_content).

(** [generate_ai_summary(metrics, sql_insights, validation_summary)]:
    [api_key] is the key read when the module is imported, [getenv] the one
    the environment holds at the call, and [create] stands for
    [openai.ChatCompletion.create], given the key and the prompt. *)
Definition generate_ai_summary (api_key getenv : option string)
    (create : string -> list piece -> result obj)
    (metrics sql_insights validation_summary : gmap string obj) : result string :=
  let prompt := build_prompt metrics sql_insights validation_summary in
  match select_key api_key getenv with
  | None => inl (RuntimeError "OPENAI_API_KEY is not set in the environment")
  | Some key =>
      if String.eqb key ""
      then inl (RuntimeError "OPENAI_API_KEY is not set in the environment")
      else bind (create key prompt) extract_content
  end.

End Ai.

(** ** main.py: the inputs of the AI summary *)

Module AiInputs.

Import Ai.

(** The dict [calculate_metrics] returns (metrics.py, lines 28 to 35). *)
Definition metrics_dict (m : Metrics.metrics) : gmap string obj :=
  list_to_map
    [("total_records", ONum (Py.NInt (Metrics.total_records m)));
     ("valid_records", ONum (Py.NInt (Metrics.valid_records m)));
     ("invalid_records", ONum (Py.NInt (Metrics.invalid_records m)));
     ("data_integrity_score", ONum (Metrics.data_integrity_score m));
     ("total_errors", ONum (Py.NInt (Metrics.total_errors m)));
     ("top_5_issues",
      OList (map (fun issue => OTuple [OStr (fst issue);
                                       ONum (Py.NInt (Z.of_nat (snd issue)))])
                 (Metrics.top_5_issues m)))].

(** [{"top_issue_types": [issue for issue, _ in metrics.get("top_5_issues", [])]}] *)
Definition validation_summary (m : Metrics.metrics) : gmap string obj :=
  {["top_issue_types" := OList (map (fun issue => OStr (fst issue))
                                    (Metrics.top_5_issues m))]}.

(** [sum(1 for err in all_errors if err.get("issue_type") == "low_stock_warning")] *)
Definition low_inventory_warnings (all_errors : list error) : Z :=
  foldl (fun total err =>
           if String.eqb (issue_type err) "low_stock_warning"
           then total + 1 else total)
        0 all_errors.

(** [sql_insights], [duplicates] and [high_price] being the lengths of the two
    query results. *)
Definition sql_insights (duplicates high_price : Z) (all_errors : list error)
  : gmap string obj :=
  list_to_map
    [("duplicate_sku_count", ONum (Py.NInt duplicates));
     ("high_price_anomalies", ONum (Py.NInt high_price));
     ("low_inventory_warnings", ONum (Py.NInt (low_inventory_warnings all_errors)))].

(** The call [generate_ai_summary(metrics, sql_insights, validation_summary)]
    of [main]. *)
Definition ai_summary (api_key getenv : option string)
    (create : string -> list piece -> result obj)
    (m : Metrics.metrics) (all_errors : list error) (duplicates high_price : Z)
  : result string :=
  generate_ai_summary api_key getenv create (metrics_dict m)
    (sql_insights duplicates high_price all_errors) (validation_summary m).

End AiInputs.

(** ** Notions used to state the facts about the sku validator *)

Section SKUSpec.

Import SKUValidator.

(** Number of rows of [df] whose sku is [k]. *)
Definition freq (k : Py.key) (df : dataframe) : nat :=
  length (filter (fun r => row_sku r = k) df).

(** Number of occurrences of [k] in [l]. *)
Definition occ (k : Py.key) (l : list Py.key) : nat :=
  length (filter (fun x => x = k) l).

(** What the format check appends for a row. *)
Definition format_part (self : t) (r : record) : list error :=
  if negb (Re.matches (sku_pattern self) (Py.str (row_sku r)))
  then [format_error self (row_sku r)] else [].

(** What the duplicate check appends for a row, [seen] being the skus of the
    rows before it. *)
Definition duplicate_part (sku_counts : gmap Py.key nat)
    (seen : list Py.key) (r : record) : list error :=
  if (1 <? KeyCounter.get sku_counts (row_sku r))%nat
     && negb (bool_decide (row_sku r ∈ seen))
  then [duplicate_error sku_counts (row_sku r)] else [].

(** The errors of the loop by recursion on the rows, [seen] being the skus
    of the rows already visited. *)
Fixpoint scan (self : t) (sku_counts : gmap Py.key nat)
    (seen : list Py.key) (df : dataframe) : list error :=
  match df with
  | [] => []
  | r :: df' =>
      format_part self r ++ duplicate_part sku_counts seen r
        ++ scan self sku_counts (seen ++ [row_sku r]) df'
  end.

(** The [duplicate_sku] errors reported for sku [k]. *)
Definition duplicates_of (k : Py.key) (errs : list error) : list error :=
  filter (fun e => issue_type e = "duplicate_sku" /\ sku e = k) errs.

(** The [invalid_sku_format] errors of a list. *)
Definition format_errors (errs : list error) : list error :=
  filter (fun e => issue_type e = "invalid_sku_format") errs.

(** The skus the default pattern accepts: "SKU-", five digits, and possibly
    one final newline. *)
Definition default_shape (l : list ascii) : bool :=
  match l with
  | s :: k :: u :: d :: c1 :: c2 :: c3 :: c4 :: c5 :: rest =>
      Ascii.eqb "S" s && Ascii.eqb "K" k && Ascii.eqb "U" u && Ascii.eqb "-" d
      && Re.is_digit c1 && Re.is_digit c2 && Re.is_digit c3 && Re.is_digit c4
      && Re.is_digit c5
      && match rest with
         | [] => true
         | [c] => Re.is_newline c
         | _ => false
         end
  | _ => false
  end.

End SKUSpec.

(** ** Notions used to state the facts about the inventory validator *)

Section InventorySpec.

Import InventoryValidator.

(** The errors one row contributes when its [int()] conversion returns or
    raises one of the two handled exceptions. *)
Definition inventory_row_errors (self : t) (row : record) : list error :=
  match Builtins.int (row_inventory_count row) with
  | inl _ => [format_error row]
  | inr v =>
      if (v <? min_inventory self)%Z then [negative_error row v]
      else if (v <? low_stock_threshold self)%Z then [low_stock_error self row v]
      else []
  end.

(** [int()] leaves the loop exactly on a float infinity. *)
Definition int_overflows (v : Py.value) : bool :=
  match v with
  | Py.VFloat (S754_infinity _) => true
  | _ => false
  end.

End InventorySpec.

(** ** Notions used to state the facts about the price validator *)

Section PriceSpec.

Import PriceValidator.

(** The errors one row contributes when its [float()] conversion returns or
    raises one of the two handled exceptions. *)
Definition price_row_errors (self : t) (row : record) : list error :=
  match Builtins.float (row_price row) with
  | inl _ => [format_error row]
  | inr v =>
      if Float.leb v (min_price self) then [too_low_error self row v]
      else if Float.geb v (max_price self) then [too_high_error self row v]
      else []
  end.

(** [float()] leaves the loop exactly on an [int] beyond the float range. *)
Definition float_overflows (v : Py.value) : bool :=
  match v with
  | Py.VInt z => Float.is_infinite (Float.of_Z z)
  | _ => false
  end.

End PriceSpec.

(** ** Notions used to state the facts about rows and issue types *)

Section ScenariosSpec.

(** A row with a [str] sku and no category. *)
Definition row (k : string) (p i : Py.value) : record :=
  mkRecord (Py.KStr k) p i Py.VNone.

(** The issue types of the errors a validator returns. *)
Definition issue_types (r : Py.result (list error)) : Py.result (list string) :=
  Py.bind r (fun errs => Py.ret (map issue_type errs)).

End ScenariosSpec.

(** ** Notions used to state the facts about bounds of rounded values *)

Section RoundingSpec.

(** The exponent of the binary64 numbers of magnitude [2^e]. *)
Definition fexp64 (e : Z) : Z := fexp Float.prec Float.emax e.

(** The smallest integer not below the value a rounding record stands for. *)
Definition ceiling (mrs : shr_record) : Z :=
  shr_m mrs + (if shr_r mrs || shr_s mrs then 1 else 0).

(** A positive representable bound [b * 2^eb]. *)
Definition is_bound (b eb : Z) : Prop :=
  0 < b /\ fexp64 (Zdigits2 b + eb) <= eb /\ eb <= Float.emax - Float.prec.

(** The value [binary_round_aux] returns for an input below the bound. *)
Definition below (s : bool) (b eb : Z) (x : spec_float) : Prop :=
  match x with
  | S754_zero s' => s' = s
  | S754_finite s' m e => s' = s /\ e <= eb /\ Zpos m <= b * 2 ^ (eb - e)
  | _ => False
  end.

(** [p / q <= b * 2^eb], on integers. *)
Definition ratio_le (p q b eb : Z) : Prop :=
  p * 2 ^ Z.max 0 (- eb) <= b * 2 ^ Z.max 0 eb * q.

(** [100.0] *)
Definition hundred : positive := 7036874417766400.

End RoundingSpec.

(** ** Notions used to state the facts about the metrics *)

Section MetricsFactsSpec.

Import Py Num Metrics.

(** [round(valid_records / total_records * 100, 2)] *)
Definition rounded_percentage (valid_records total_records : Z) : result number :=
  bind (bind (truediv valid_records total_records)
          (fun q => ret (NFloat (Float.mul q (Float.of_Z 100)))))
       round2.

End MetricsFactsSpec.

(** ** Notions used to state the facts about the ranking of issue types *)

Section RankingSpec.

Import IssueCounter.

(** Number of occurrences of [t] in [l]. *)
Definition occurrences (t : string) (l : list string) : nat :=
  length (filter (fun x => x = t) l).

(** Position of the first occurrence of [t] in [l] ([length l] when there is
    none). *)
Fixpoint first_index (t : string) (l : list string) : nat :=
  match l with
  | [] => 0%nat
  | x :: l' => if decide (x = t) then 0%nat else S (first_index t l')
  end.

(** [a] is ranked before [b]: more occurrences, or as many and first seen
    earlier. *)
Definition ranked_before (l : list string) (a b : string) : Prop :=
  (occurrences b l < occurrences a l)%nat \/
  (occurrences a l = occurrences b l /\ (first_index a l < first_index b l)%nat).

(** The count the counter holds for [t]. *)
Fixpoint count_of (c : list (string * nat)) (t : string) : nat :=
  match c with
  | [] => 0%nat
  | (k, n) :: c' => if decide (k = t) then n else count_of c' t
  end.

(** What the counter built from the prefix [p] holds. *)
Definition counts_prefix (c : list (string * nat)) (p : list string) : Prop :=
  (forall t, count_of c t = occurrences t p) /\
  (forall t, t ∈ map fst c <-> t ∈ p) /\
  StronglySorted (fun a b => (first_index a p < first_index b p)%nat) (map fst c).

(** The order a stable descending sort establishes, [K] being the order of
    the input. *)
Definition stable_order (K : relation (string * nat)) : relation (string * nat) :=
  fun a b => (snd b < snd a)%nat \/ (snd a = snd b /\ K a b).

(** The ranking of the issue types of an error list: the counter's items
    after the stable descending sort. *)
Definition ranking (types : list string) : list (string * nat) :=
  sorted_by_count (of_list types).

End RankingSpec.

(** ** Notions used to state the facts about the summary *)

Section SummaryFactsSpec.

Import Py Num Metrics Summary.

(** Whether [phrase] occurs in [s]. *)
Definition occurs_in (phrase s : string) : bool :=
  match String.index 0 phrase s with
  | Some _ => true
  | None => false
  end.

(** Whether a literal part of the paragraph contains [phrase]. *)
Definition has_phrase (phrase : string) (paragraph : list piece) : bool :=
  existsb (fun p => match p with Text s => occurs_in phrase s | _ => false end)
          paragraph.












End SummaryFactsSpec.

(** ** Notions used to state the facts about the validators together *)

Section ValidatorFactsSpec.

(** The issue types each validator can emit. *)
Definition price_issue_types : list string :=
  ["invalid_price_format"; "price_too_low"; "price_too_high"].

Definition sku_issue_types : list string :=
  ["invalid_sku_format"; "duplicate_sku"].

Definition inventory_issue_types : list string :=
  ["invalid_inventory_format"; "negative_inventory"; "low_stock_warning"].

(** A threshold that is a number: neither a NaN nor an infinity. *)
Definition finite_threshold (x : spec_float) : bool :=
  match x with
  | S754_zero _ | S754_finite _ _ _ => true
  | _ => false
  end.

(** A row whose inventory count is an integer from 0 to 4. *)
Definition is_low_stock (r : record) : bool :=
  match Builtins.int (row_inventory_count r) with
  | inr v => (0 <=? v) && (v <? 5)
  | inl _ => false
  end.

Definition low_stock_warnings (errors : list error) : list error :=
  filter (fun e => issue_type e = "low_stock_warning") errors.

(** The rows whose sku the pattern rejects, and the skus that more than one
    row holds. *)
Definition malformed_rows (self : SKUValidator.t) (df : dataframe) : dataframe :=
  filter (fun r => Re.matches (SKUValidator.sku_pattern self) (Py.str (row_sku r))
                   = false) df.

Definition repeated_skus (df : dataframe) : gset Py.key :=
  filter (fun k => (1 < freq k df)%nat) (list_to_set (map row_sku df)).

Definition duplicate_errors (errs : list error) : list error :=
  filter (fun e => issue_type e = "duplicate_sku") errs.

End ValidatorFactsSpec.

(** ** Notions used to state the facts about the aggregation *)

Section AggregationFactsSpec.

Import Py Num Metrics.

(** The sum of the counts of a list of items. *)
Definition sum_counts (items : list (string * nat)) : nat :=
  foldr (fun item total => (snd item + total)%nat) 0%nat items.

End AggregationFactsSpec.

(** ** Notions used to state the facts about the score *)

Section ScoreFactsSpec.

Import Py Num Metrics Summary.

(** A float that is zero or positive. *)
Definition nonnegative (y : spec_float) : bool :=
  match y with
  | S754_zero _ | S754_finite false _ _ => true
  | _ => false
  end.

End ScoreFactsSpec.

(** ** Notions used to state the facts about the dashboard *)

Section DashboardFactsSpec.

Import Py Num Metrics Dashboard.






(** [1.0] *)
Definition one : spec_float := S754_finite false 4503599627370496 (-52).

(** The line of an issue that holds all the errors. *)
Definition full_issue_line (idx : Z) (issue_type : string) (count : nat) : line :=
  [Lit "  "; FmtNum (NInt idx) ""; Lit ". "; FmtStr issue_type "<30";
   Lit " "; FmtNum (NInt (Z.of_nat count)) ">6"; Lit " (";
   FmtNum (NFloat (Float.of_Z 100)) ">5.1f"; Lit "%)  [";
   Lit "####################"; Lit "]"].

End DashboardFactsSpec.

(** ** Notions used to state the facts about the AI summary *)

Section AiFactsSpec.

Import Ai AiInputs.


(** The objects an f-string interpolates, in order. *)
Definition interpolated (prompt : list piece) : list obj :=
  flat_map (fun p => match p with Str o => [o] | Lit _ => [] end) prompt.

End AiFactsSpec.

(** ** Facts about the sku validator *)

Section SKU.

Import SKUValidator.

Lemma get_add c k k' :
  KeyCounter.get (KeyCounter.add c k') k =
  if decide (k' = k) then S (KeyCounter.get c k) else KeyCounter.get c k.
Proof.
  unfold KeyCounter.add, KeyCounter.get at 1.
  destruct (decide (k' = k)) as [->|Hne].
  - by rewrite lookup_insert_eq.
  - by rewrite lookup_insert_ne.
Qed.

Lemma get_foldl_add l : forall c k,
  KeyCounter.get (foldl KeyCounter.add c l) k = (KeyCounter.get c k + occ k l)%nat.
Proof.
  induction l as [|x l IH]; intros c k; simpl.
  - unfold occ; simpl; lia.
  - rewrite IH, get_add. unfold occ. rewrite filter_cons.
    destruct (decide (x = k)); simpl; lia.
Qed.

Lemma occ_map_sku k df : occ k (map row_sku df) = freq k df.
Proof.
  unfold occ, freq. induction df as [|r df IH]; [done|].
  cbn [map]. rewrite (filter_cons _ (row_sku r)), (filter_cons _ r). destruct (decide (row_sku r = k)); simpl; by rewrite IH.
Qed.

Lemma get_of_list k df :
  KeyCounter.get (KeyCounter.of_list (map row_sku df)) k = freq k df.
Proof.
  unfold KeyCounter.of_list. rewrite get_foldl_add, occ_map_sku.
  unfold KeyCounter.get. by rewrite lookup_empty.
Qed.

Lemma foldl_body self counts df : forall errs (rep : gset Py.key) seen,
  (forall k, k ∈ rep <-> k ∈ seen /\ (1 < KeyCounter.get counts k)%nat) ->
  fst (foldl (body self counts) (errs, rep) df) = errs ++ scan self counts seen df.
Proof.
  induction df as [|r df IH]; intros errs rep seen Hrep; simpl.
  - by rewrite app_nil_r.
  - unfold format_part, duplicate_part, append.
    destruct (Nat.ltb_spec 1 (KeyCounter.get counts (row_sku r))) as [Hc|Hc].
    + destruct (decide (row_sku r ∈ rep)) as [Hin|Hin].
      * assert (Hs : row_sku r ∈ seen) by (apply Hrep in Hin; tauto).
        rewrite (bool_decide_eq_true_2 _ Hin), (bool_decide_eq_true_2 _ Hs). simpl.
        rewrite (IH _ rep (seen ++ [row_sku r])).
        -- destruct (negb _); simpl; by rewrite <- ?app_assoc.
        -- intros k. rewrite Hrep, elem_of_app, list_elem_of_singleton.
           split; [tauto|]. intros [[?| ->] ?]; tauto.
      * assert (Hs : row_sku r ∉ seen) by (intros ?; apply Hin, Hrep; tauto).
        rewrite (bool_decide_eq_false_2 _ Hin), (bool_decide_eq_false_2 _ Hs). simpl.
        rewrite (IH _ ({[row_sku r]} ∪ rep) (seen ++ [row_sku r])).
        -- destruct (negb _); simpl; by rewrite <- ?app_assoc.
        -- intros k. rewrite elem_of_union, elem_of_singleton, Hrep, elem_of_app,
             list_elem_of_singleton.
           split; [intros [->|?]; tauto | tauto].
    + simpl. rewrite (IH _ rep (seen ++ [row_sku r])).
      * destruct (negb _); simpl; by rewrite <- ?app_assoc.
      * intros k. rewrite Hrep, elem_of_app, list_elem_of_singleton.
        split; [tauto|]. intros [[?| ->] ?]; [tauto|lia].
Qed.

Lemma validate_scan self df :
  validate self df =
  scan self (KeyCounter.of_list (map row_sku df)) [] df.
Proof.
  unfold validate. rewrite (foldl_body _ _ _ [] ∅ []); [done|].
  intros k. rewrite elem_of_nil. set_solver.
Qed.

Lemma scan_imap self c df : forall seen,
  scan self c seen df =
  concat (imap (fun i r =>
                  format_part self r
                    ++ duplicate_part c (seen ++ take i (map row_sku df)) r) df).
Proof.
  induction df as [|r df IH]; intros seen; [done|].
  cbn [scan imap concat map]. rewrite take_0, app_nil_r, <- app_assoc.
  do 2 f_equal. rewrite IH. f_equal. apply imap_ext. intros i x _. simpl.
  by rewrite <- app_assoc.
Qed.

Lemma duplicates_of_format self r k :
  duplicates_of k (format_part self r) = [].
Proof.
  unfold format_part, duplicates_of. destruct (negb _); [|done].
  rewrite filter_cons. case_decide as H; [|done]. by destruct H.
Qed.

Lemma duplicates_of_duplicate_part c seen r k :
  length (duplicates_of k (duplicate_part c seen r)) =
  if bool_decide (row_sku r = k /\ (1 < KeyCounter.get c k)%nat /\ (k ∉ seen))
  then 1%nat else 0%nat.
Proof.
  unfold duplicate_part, duplicates_of.
  destruct (Nat.ltb_spec 1 (KeyCounter.get c (row_sku r))) as [Hc|Hc]; simpl.
  - destruct (decide (row_sku r ∈ seen)) as [Hin|Hin].
    + rewrite (bool_decide_eq_true_2 _ Hin). simpl.
      case_bool_decide as H; [|done]. destruct H as (<- & _ & ?). done.
    + rewrite (bool_decide_eq_false_2 _ Hin). simpl.
      rewrite filter_cons. simpl.
      case_decide as H1; case_bool_decide as H2; simpl; try done.
      * destruct H1 as [_ H1]. destruct H2. subst k. done.
      * destruct H2 as (H2 & _ & _). destruct H1. done.
  - case_bool_decide as H; [|done]. destruct H as (<- & ? & _). lia.
Qed.

Lemma duplicates_of_scan self c k df : forall seen,
  length (duplicates_of k (scan self c seen df)) =
  if bool_decide ((1 < KeyCounter.get c k)%nat /\ (k ∉ seen) /\ k ∈ map row_sku df)
  then 1%nat else 0%nat.
Proof.
  induction df as [|r df IH]; intros seen.
  - simpl. case_bool_decide as H; [|done]. destruct H as (_ & _ & H).
    by apply elem_of_nil in H.
  - cbn [scan map]. unfold duplicates_of in *.
    rewrite !filter_app, !length_app.
    pose proof (duplicates_of_format self r k) as Hf. unfold duplicates_of in Hf.
    rewrite Hf. clear Hf.
    pose proof (duplicates_of_duplicate_part c seen r k) as Hd.
    unfold duplicates_of in Hd. rewrite Hd, IH. clear Hd. simpl.
    destruct (decide (row_sku r = k)) as [Hk|Hk].
    + rewrite (bool_decide_eq_false_2
                 ((1 < KeyCounter.get c k)%nat /\ (k ∉ seen ++ [row_sku r]) /\ _)).
      2:{ intros (_ & H & _). apply H. rewrite elem_of_app, list_elem_of_singleton. auto. }
      rewrite Nat.add_0_r.
      rewrite (bool_decide_ext _ ((1 < KeyCounter.get c k)%nat /\ (k ∉ seen)
                                   /\ k ∈ row_sku r :: map row_sku df)); [done|].
      rewrite elem_of_cons. intuition.
    + rewrite (bool_decide_eq_false_2 (row_sku r = k /\ _)) by tauto.
      simpl.
      rewrite (bool_decide_ext _ ((1 < KeyCounter.get c k)%nat /\ (k ∉ seen)
                                   /\ k ∈ row_sku r :: map row_sku df)); [done|].
      rewrite elem_of_app, !elem_of_cons, elem_of_nil.
      intuition congruence.
Qed.

Lemma freq_pos_elem k df : (0 < freq k df)%nat -> k ∈ map row_sku df.
Proof.
  unfold freq. induction df as [|r df IH]; [simpl; lia|].
  intros H. rewrite (filter_cons _ r) in H. cbn [map]. rewrite elem_of_cons.
  destruct (decide (row_sku r = k)); [auto|]. right. by apply IH.
Qed.

Lemma scan_skus self c df : forall seen e,
  e ∈ scan self c seen df -> sku e ∈ map row_sku df.
Proof.
  induction df as [|r df IH]; intros seen e; simpl; [by intros H%elem_of_nil|].
  rewrite !elem_of_app. unfold format_part, duplicate_part.
  intros [H|[H|H]].
  - destruct (negb _); [|by apply elem_of_nil in H].
    apply list_elem_of_singleton in H as ->. apply elem_of_cons. auto.
  - destruct (_ && _); [|by apply elem_of_nil in H].
    apply list_elem_of_singleton in H as ->. apply elem_of_cons. auto.
  - apply elem_of_cons. right. by eapply IH.
Qed.

Lemma sku_validate_skus self df e :
  e ∈ validate self df -> sku e ∈ map row_sku df.
Proof. rewrite validate_scan. apply scan_skus. Qed.

(** C3: every sku that occurs more than once in the record set gets exactly
    one [duplicate_sku] error and every other sku gets none; the error is
    appended at the row where the sku occurs for the first time (the rows
    before it do not hold that sku); two rows that share "SKU-00001" yield
    exactly one [duplicate_sku] error in total. *)
Theorem sku_duplicate_reported_once_at_first_occurrence
    (self : t) (df : dataframe) :
  let sku_counts := KeyCounter.of_list (map row_sku df) in
  (forall k, KeyCounter.get sku_counts k = freq k df) /\
  (forall k,
     length (duplicates_of k (validate self df)) =
     if bool_decide (1 < freq k df)%nat then 1%nat else 0%nat) /\
  validate self df =
    concat (imap (fun i r =>
                    format_part self r
                      ++ duplicate_part sku_counts (take i (map row_sku df)) r)
                 df) /\
  (forall p1 i1 c1 p2 i2 c2,
     length (filter (fun e => issue_type e = "duplicate_sku")
               (validate self
                  [mkRecord (Py.KStr "SKU-00001") p1 i1 c1;
                   mkRecord (Py.KStr "SKU-00001") p2 i2 c2])) = 1%nat).
Proof.
  intros sku_counts. split; [|split; [|split]].
  - intros k. apply get_of_list.
  - intros k. rewrite validate_scan, duplicates_of_scan, get_of_list.
    rewrite (bool_decide_ext _ (1 < freq k df)%nat); [done|]. split.
    + tauto.
    + intros H. split; [done|]. split; [apply not_elem_of_nil|].
      apply freq_pos_elem. lia.
  - rewrite validate_scan. apply (scan_imap self sku_counts df []).
  - intros p1 i1 c1 p2 i2 c2. rewrite validate_scan. cbn [scan map row_sku].
    unfold format_part. cbn [row_sku].
    destruct (negb _); vm_compute; reflexivity.
Qed.

Lemma format_errors_scan self c df : forall seen,
  format_errors (scan self c seen df) =
  map (fun r => format_error self (row_sku r))
      (filter (fun r => Re.matches (sku_pattern self) (Py.str (row_sku r)) = false) df).
Proof.
  unfold format_errors.
  induction df as [|r df IH]; intros seen; [done|].
  cbn [scan]. rewrite !filter_app, IH, (filter_cons _ r).
  unfold format_part, duplicate_part.
  destruct (Re.matches _ _) eqn:Hm; simpl;
    destruct (_ && _); simpl; try done.
Qed.

(** C6, amended: the [invalid_sku_format] errors are, in order, those of the
    rows for which [re.match] finds no match of the configured pattern at the
    start of [str(sku)]; the match may end before the end of the sku. *)
Theorem sku_format_error_iff_no_match_at_start (self : t) (df : dataframe) :
  format_errors (validate self df) =
  map (fun r => format_error self (row_sku r))
      (filter (fun r => Re.matches (sku_pattern self) (Py.str (row_sku r)) = false) df).
Proof.
  rewrite validate_scan. apply format_errors_scan.
Qed.

(** C6 as stated fails: with a pattern that has no trailing anchor a sku
    that only starts with a match is accepted although the whole sku does not
    match; with the default pattern the same happens for a sku that ends in a
    newline. *)
Lemma sku_prefix_match_is_accepted :
  let no_trailing_anchor :=
    Re.Seq Re.Bol (Re.Seq (Re.lit (Re.chars "SKU-")) (Re.Rep 5 Re.Digit)) in
  let r := mkRecord (Py.KStr "SKU-00001-OLD") Py.VNone Py.VNone Py.VNone in
  Re.fullmatch no_trailing_anchor (Py.str (row_sku r)) = false /\
  format_errors (validate (init (Some no_trailing_anchor)) [r]) = [] /\
  let r' := mkRecord (Py.KStr ("SKU-00001" ++ String Re.newline "")) Py.VNone Py.VNone Py.VNone in
  Re.fullmatch SKU_PATTERN (Py.str (row_sku r')) = false /\
  format_errors (validate (init None) [r']) = [].
Proof. vm_compute. repeat split. Qed.

Lemma default_pattern_shape (s : string) :
  Re.matches SKUValidator.SKU_PATTERN s = default_shape (Re.chars s).
Proof.
  unfold Re.matches. generalize (Re.chars s). intros l.
  unfold SKUValidator.SKU_PATTERN, default_shape.
  destruct l as [|a1 [|a2 [|a3 [|a4 [|a5 [|a6 [|a7 [|a8 [|a9 rest]]]]]]]]];
    cbn -[Ascii.eqb Re.is_digit Re.is_newline];
    repeat match goal with
      | |- context [Ascii.eqb ?a ?b] =>
          destruct (Ascii.eqb a b); cbn -[Ascii.eqb Re.is_digit Re.is_newline];
          try reflexivity
      | |- context [Re.is_digit ?a] =>
          destruct (Re.is_digit a); cbn -[Ascii.eqb Re.is_digit Re.is_newline];
          try reflexivity
      end; try reflexivity.
  destruct rest as [|c [|c' rest]]; cbn -[Re.is_newline]; try reflexivity.
  by destruct (Re.is_newline c).
Qed.

Example default_pattern_accepts : Re.matches SKU_PATTERN "SKU-00001" = true.
Proof. reflexivity. Qed.

Example default_pattern_rejects :
  Re.matches SKU_PATTERN "ABC-1" = false /\
  Re.matches SKU_PATTERN "SKU-000012" = false /\
  Re.matches SKU_PATTERN "xSKU-00001" = false /\
  Re.fullmatch SKU_PATTERN "SKU-00001" = true.
Proof. vm_compute. repeat split. Qed.

End SKU.

(** ** The built-ins on sample inputs *)

Section BuiltinsExamples.

Import Py Builtins.

Example int_of_str_samples :
  map int_of_str ["12"; " -7 "; "+1_000"; "007"; "1__0"; "_1"; "1_"; "";
                  "abc"; "0x10"; "1.0"; "- 5"; "inf"]
  = [Some 12; Some (-7); Some 1000; Some 7; None; None; None; None;
     None; None; None; None; None].
Proof. reflexivity. Qed.

Example int_samples :
  int (VFloat (Float.of_decimal true 37 (-1))) = ret (-3) /\
  int (VFloat (Float.of_decimal false 12345678 (-2))) = ret 123456 /\
  int (VFloat S754_nan) = raise ValueError /\
  int (VFloat (S754_infinity true)) = raise OverflowError /\
  int VNone = raise TypeError /\
  int (VStr "twelve") = raise ValueError.
Proof. repeat split. Qed.

Example float_of_str_samples :
  map float_of_str ["abc"; ""; "."; "1e"; "1 e5"; "nan1"; "1__0"; "0x1p3"]
  = [None; None; None; None; None; None; None; None] /\
  float_of_str " NaN " = Some S754_nan /\
  float_of_str "-Infinity" = Some (S754_infinity true) /\
  float_of_str "1e400" = Some (S754_infinity false) /\
  float_of_str "-0" = Some (S754_zero true) /\
  float_of_str "1.5e+2" = Some (S754_finite false 5277655813324800 (-45)) /\
  float_of_str "1_000.2_5" = float_of_str "1000.25" /\
  float_of_str "0.01" = Some (S754_finite false 5764607523034235 (-59)) /\
  float_of_str "9999.99" = Some (S754_finite false 5497552641321861 (-39)).
Proof. vm_compute. repeat split. Qed.

Example float_samples :
  float (VInt 3) = ret (S754_finite false 6755399441055744 (-51)) /\
  float (VInt (2 ^ 53 + 1)) = ret (S754_finite false 4503599627370496 1) /\
  float (VInt (2 ^ 1024)) = raise OverflowError /\
  float VNone = raise TypeError.
Proof. vm_compute. repeat split. Qed.

Example thresholds :
  PriceValidator.MIN_PRICE = S754_finite false 5764607523034235 (-59) /\
  PriceValidator.MAX_PRICE = S754_finite false 5497552641321861 (-39).
Proof. vm_compute. split; reflexivity. Qed.

Example str_samples :
  map Py.str [KStr "SKU-00001"; KInt 42; KInt (-7); KInt 0; KNone]
  = ["SKU-00001"; "42"; "-7"; "0"; "None"].
Proof. reflexivity. Qed.

Example round2_samples :
  (* round(2.675, 2) == 2.67, round(0.125, 2) == 0.12, round(0.375, 2) == 0.38 *)
  Num.round2_float (Float.of_decimal false 2675 (-3))
  = ret (Float.of_decimal false 267 (-2)) /\
  Num.round2_float (Float.of_decimal false 125 (-3))
  = ret (Float.of_decimal false 12 (-2)) /\
  Num.round2_float (Float.of_decimal false 375 (-3))
  = ret (Float.of_decimal false 38 (-2)) /\
  Num.round2_float (Float.of_decimal true 1 (-3)) = ret (S754_zero true) /\
  Num.truediv 1 0 = raise ZeroDivisionError /\
  Num.truediv (2 ^ 1100) 1 = raise OverflowError /\
  Num.truediv 1 3 = ret (S754_finite false 6004799503160661 (-54)).
Proof. vm_compute. repeat split. Qed.

End BuiltinsExamples.

(** ** Facts about loops that only append *)

Lemma for_each_append {A} (body : list error -> A -> Py.result (list error))
    (f : A -> list error) (l : list A) :
  (forall errs x, x ∈ l -> body errs x = Py.ret (errs ++ f x)) ->
  forall errs, for_each body l errs = Py.ret (errs ++ flat_map f l).
Proof.
  induction l as [|x l IH]; intros Hbody errs; simpl.
  - by rewrite app_nil_r.
  - rewrite Hbody by (apply elem_of_cons; auto). simpl.
    rewrite IH, app_assoc; [done|].
    intros errs' y Hy. apply Hbody. apply elem_of_cons; auto.
Qed.

Lemma for_each_app {A S} (body : S -> A -> Py.result S) (l1 l2 : list A) (st : S) :
  for_each body (l1 ++ l2) st = Py.bind (for_each body l1 st) (for_each body l2).
Proof.
  revert st. induction l1 as [|x l1 IH]; intros st; simpl; [done|].
  destruct (body st x) as [e|st']; simpl; [done|apply IH].
Qed.

Lemma forallb_false_split {A} (f : A -> bool) (l : list A) :
  forallb f l = false ->
  exists l1 x l2, l = l1 ++ x :: l2 /\ forallb f l1 = true /\ f x = false.
Proof.
  induction l as [|y l IH]; simpl; [discriminate|].
  destruct (f y) eqn:Hy; simpl.
  - intros H. destruct (IH H) as (l1 & x & l2 & -> & Hl1 & Hx).
    exists (y :: l1), x, l2. simpl. by rewrite Hy, Hl1.
  - intros _. by exists [], y, l.
Qed.

(** A loop whose body appends errors of the current row only yields errors
    of rows of the frame. *)
Lemma for_each_skus (body : list error -> record -> Py.result (list error))
    (df : dataframe) :
  (forall errs row errs',
     body errs row = Py.ret errs' ->
     exists new, errs' = errs ++ new /\ Forall (fun e => sku e = row_sku row) new) ->
  forall errs out,
    for_each body df errs = Py.ret out ->
    forall e, e ∈ out -> e ∈ errs \/ sku e ∈ map row_sku df.
Proof.
  intros Hbody. induction df as [|row df IH]; intros errs out Hout e He; simpl in *.
  - injection Hout as <-. auto.
  - destruct (body errs row) as [ex|errs'] eqn:Hb; simpl in Hout; [done|].
    destruct (Hbody _ _ _ Hb) as (new & -> & Hnew).
    destruct (IH _ _ Hout e He) as [Hin|Hin].
    + apply elem_of_app in Hin as [Hin|Hin]; [auto|].
      right. rewrite Forall_forall in Hnew. rewrite (Hnew e Hin).
      apply elem_of_cons. auto.
    + right. apply elem_of_cons. auto.
Qed.

(** ** Facts about the inventory validator *)

Section Inventory.

Import InventoryValidator.

Lemma int_overflows_spec v :
  int_overflows v = true <-> Builtins.int v = Py.raise Py.OverflowError.
Proof.
  destruct v as [s|z|f|]; simpl; try (split; discriminate).
  - destruct (Builtins.int_of_str s); split; discriminate.
  - destruct f; simpl; split; try discriminate; done.
Qed.

Lemma int_exn v e :
  Builtins.int v = inl e ->
  e = Py.ValueError \/ e = Py.TypeError \/ e = Py.OverflowError.
Proof.
  destruct v as [s|z|f|]; simpl.
  - destruct (Builtins.int_of_str s); intros [=]; auto.
  - intros [=].
  - destruct f; intros [=]; auto.
  - intros [=]; auto.
Qed.

Lemma inventory_body_no_overflow self errs row :
  int_overflows (row_inventory_count row) = false ->
  body self errs row = Py.ret (errs ++ inventory_row_errors self row).
Proof.
  intros Hov. unfold body, inventory_row_errors, append.
  destruct (Builtins.int (row_inventory_count row)) as [e|v] eqn:Hint.
  - destruct (int_exn _ _ Hint) as [->|[->| ->]]; try done.
    apply int_overflows_spec in Hint. congruence.
  - destruct (v <? min_inventory self)%Z; [done|].
    destruct (v <? low_stock_threshold self)%Z; [done|].
    by rewrite app_nil_r.
Qed.

Lemma inventory_validate_no_overflow self df :
  forallb (fun r => negb (int_overflows (row_inventory_count r))) df = true ->
  validate self df = Py.ret (flat_map (inventory_row_errors self) df).
Proof.
  intros Hall. unfold validate.
  rewrite (for_each_append _ (inventory_row_errors self)); [done|].
  intros errs x Hx. apply inventory_body_no_overflow.
  rewrite forallb_forall in Hall. apply negb_true_iff, Hall.
  by apply list_elem_of_In.
Qed.

Lemma inventory_validate_overflow self df1 r df2 :
  int_overflows (row_inventory_count r) = true ->
  forallb (fun r => negb (int_overflows (row_inventory_count r))) df1 = true ->
  validate self (df1 ++ r :: df2) = Py.raise Py.OverflowError.
Proof.
  intros Hr Hall. unfold validate. rewrite for_each_app.
  fold (validate self df1). rewrite inventory_validate_no_overflow by done.
  simpl. unfold body. apply int_overflows_spec in Hr. by rewrite Hr.
Qed.

Lemma inventory_validate_raises self df :
  validate self df = Py.raise Py.OverflowError <->
  forallb (fun r => negb (int_overflows (row_inventory_count r))) df = false.
Proof.
  split.
  - intros Hraise.
    destruct (forallb _ df) eqn:Hall; [|done].
    rewrite (inventory_validate_no_overflow self df Hall) in Hraise. done.
  - intros Hall. apply forallb_false_split in Hall as (df1 & r & df2 & -> & H1 & Hr).
    apply inventory_validate_overflow; [|done]. by apply negb_false_iff.
Qed.

Lemma inventory_body_skus self errs row errs' :
  body self errs row = Py.ret errs' ->
  exists new, errs' = errs ++ new /\ Forall (fun e => sku e = row_sku row) new.
Proof.
  unfold body, append.
  destruct (Builtins.int (row_inventory_count row)) as [[]|v].
  - intros [= <-]. eexists. split; [done|]. by repeat constructor.
  - intros [= <-]. eexists. split; [done|]. by repeat constructor.
  - discriminate.
  - discriminate.
  - destruct (v <? min_inventory self).
    + intros [= <-]. eexists. split; [done|]. by repeat constructor.
    + destruct (v <? low_stock_threshold self); intros [= <-].
      * eexists. split; [done|]. by repeat constructor.
      * exists []. split; [by rewrite app_nil_r|constructor].
Qed.

Lemma inventory_validate_skus self df errs :
  validate self df = Py.ret errs ->
  forall e, e ∈ errs -> sku e ∈ map row_sku df.
Proof.
  intros Hv e He.
  destruct (for_each_skus (body self) df (inventory_body_skus self) [] errs Hv e He)
    as [H|H]; [by apply elem_of_nil in H|done].
Qed.

End Inventory.

(** ** Facts about the price validator *)

Section Price.

Import PriceValidator.

Lemma float_overflows_spec v :
  float_overflows v = true <-> Builtins.float v = Py.raise Py.OverflowError.
Proof.
  destruct v as [s|z|f|]; simpl; try (split; discriminate).
  - destruct (Builtins.float_of_str s); split; discriminate.
  - destruct (Float.is_infinite (Float.of_Z z)); split; try discriminate; done.
Qed.

Lemma float_exn v e :
  Builtins.float v = inl e ->
  e = Py.ValueError \/ e = Py.TypeError \/ e = Py.OverflowError.
Proof.
  destruct v as [s|z|f|]; simpl.
  - destruct (Builtins.float_of_str s); intros [=]; auto.
  - destruct (Float.is_infinite (Float.of_Z z)); intros [=]; auto.
  - intros [=].
  - intros [=]; auto.
Qed.

Lemma price_body_no_overflow self errs row :
  float_overflows (row_price row) = false ->
  body self errs row = Py.ret (errs ++ price_row_errors self row).
Proof.
  intros Hov. unfold body, price_row_errors, append.
  destruct (Builtins.float (row_price row)) as [e|v] eqn:Hfl.
  - destruct (float_exn _ _ Hfl) as [->|[->| ->]]; try done.
    apply float_overflows_spec in Hfl. congruence.
  - destruct (Float.leb v (min_price self)); [done|].
    destruct (Float.geb v (max_price self)); [done|].
    by rewrite app_nil_r.
Qed.

Lemma price_validate_no_overflow self df :
  forallb (fun r => negb (float_overflows (row_price r))) df = true ->
  validate self df = Py.ret (flat_map (price_row_errors self) df).
Proof.
  intros Hall. unfold validate.
  rewrite (for_each_append _ (price_row_errors self)); [done|].
  intros errs x Hx. apply price_body_no_overflow.
  rewrite forallb_forall in Hall. apply negb_true_iff, Hall.
  by apply list_elem_of_In.
Qed.

Lemma price_validate_overflow self df1 r df2 :
  float_overflows (row_price r) = true ->
  forallb (fun r => negb (float_overflows (row_price r))) df1 = true ->
  validate self (df1 ++ r :: df2) = Py.raise Py.OverflowError.
Proof.
  intros Hr Hall. unfold validate. rewrite for_each_app.
  fold (validate self df1). rewrite price_validate_no_overflow by done.
  simpl. unfold body. apply float_overflows_spec in Hr. by rewrite Hr.
Qed.

Lemma price_validate_raises self df :
  validate self df = Py.raise Py.OverflowError <->
  forallb (fun r => negb (float_overflows (row_price r))) df = false.
Proof.
  split.
  - intros Hraise.
    destruct (forallb _ df) eqn:Hall; [|done].
    rewrite (price_validate_no_overflow self df Hall) in Hraise. done.
  - intros Hall. apply forallb_false_split in Hall as (df1 & r & df2 & -> & H1 & Hr).
    apply price_validate_overflow; [|done]. by apply negb_false_iff.
Qed.

Lemma price_body_skus self errs row errs' :
  body self errs row = Py.ret errs' ->
  exists new, errs' = errs ++ new /\ Forall (fun e => sku e = row_sku row) new.
Proof.
  unfold body, append.
  destruct (Builtins.float (row_price row)) as [[]|v].
  - intros [= <-]. eexists. split; [done|]. by repeat constructor.
  - intros [= <-]. eexists. split; [done|]. by repeat constructor.
  - discriminate.
  - discriminate.
  - destruct (Float.leb v (min_price self)).
    + intros [= <-]. eexists. split; [done|]. by repeat constructor.
    + destruct (Float.geb v (max_price self)); intros [= <-].
      * eexists. split; [done|]. by repeat constructor.
      * exists []. split; [by rewrite app_nil_r|constructor].
Qed.

Lemma price_validate_skus self df errs :
  validate self df = Py.ret errs ->
  forall e, e ∈ errs -> sku e ∈ map row_sku df.
Proof.
  intros Hv e He.
  destruct (for_each_skus (body self) df (price_body_skus self) [] errs Hv e He)
    as [H|H]; [by apply elem_of_nil in H|done].
Qed.

Lemma nan_compares_false (x : spec_float) :
  Float.leb Float.nan x = false /\ Float.geb Float.nan x = false.
Proof. split; [reflexivity|]. by destruct x. Qed.

Lemma price_body_nan self errs row :
  Builtins.float (row_price row) = Py.ret Float.nan ->
  body self errs row = Py.ret errs.
Proof.
  intros Hnan. unfold body. rewrite Hnan. unfold Py.ret.
  destruct (nan_compares_false (min_price self)) as [-> _].
  destruct (nan_compares_false (max_price self)) as [_ ->]. done.
Qed.

(** C10: a row whose price converts to NaN appends nothing to [errors]:
    [validate] returns what it returns without that row. *)
Theorem nan_price_passes_validation (self : t) (row : record) :
  Builtins.float (row_price row) = Py.ret Float.nan ->
  (forall errors, body self errors row = Py.ret errors) /\
  (forall df1 df2,
     validate self (df1 ++ row :: df2) = validate self (df1 ++ df2)).
Proof.
  intros Hnan. split.
  - intros errors. by apply price_body_nan.
  - intros df1 df2. unfold validate. rewrite !for_each_app.
    destruct (for_each (body self) df1 []) as [e|errs]; simpl; [done|].
    by rewrite price_body_nan.
Qed.

Lemma nan_price_passes_validation_witness :
  let self := init None None in
  let row := mkRecord (Py.KStr "SKU-00001") (Py.VStr "nan") (Py.VInt 10) Py.VNone in
  Builtins.float (row_price row) = Py.ret Float.nan /\
  (forall errors, body self errors row = Py.ret errors) /\
  (forall df1 df2,
     validate self (df1 ++ row :: df2) = validate self (df1 ++ df2)).
Proof.
  split; [reflexivity | apply nan_price_passes_validation; reflexivity].
Defined.

Example nan_prices_yield_no_error :
  validate (init None None)
    [mkRecord (Py.KStr "SKU-00001") (Py.VStr "nan") (Py.VInt 10) Py.VNone;
     mkRecord (Py.KStr "SKU-00002") (Py.VFloat S754_nan) (Py.VInt 10) Py.VNone;
     mkRecord (Py.KStr "SKU-00003") (Py.VStr " NaN ") (Py.VInt 10) Py.VNone]
  = Py.ret [].
Proof. reflexivity. Qed.

End Price.

(** ** The validators on the specification's scenarios *)

Section Scenarios.

(** C2: on every record set whose prices convert without overflow each row
    gets one [invalid_price_format] error when [float()] fails, else one
    [price_too_low] error when the value is [<= min_price], else one
    [price_too_high] error when it is [>= max_price], else nothing; price 0
    and 0.01 against [min_price] 0.01 are too low and 9999.99 against
    [max_price] 9999.99 is too high; the description of an
    [invalid_price_format] error holds the raw price; but a price that is an [int] beyond the
    float range ends [validate] with an [OverflowError] instead of an
    [invalid_price_format] error. *)
Theorem price_classification_and_uncaught_overflow :
  (forall self df,
     forallb (fun r => negb (float_overflows (row_price r))) df = true ->
     PriceValidator.validate self df
     = Py.ret (flat_map (price_row_errors self) df)) /\
  (forall r, In (OfValue (row_price r))
               (issue_description (PriceValidator.format_error r))) /\
  issue_types
    (PriceValidator.validate
       (PriceValidator.init (Some (Float.of_decimal false 1 (-2))) None)
       [row "SKU-00001" (Py.VInt 0) (Py.VInt 10);
        row "SKU-00002" (Py.VStr "0.01") (Py.VInt 10);
        row "SKU-00003" (Py.VStr "0.02") (Py.VInt 10)])
  = Py.ret ["price_too_low"; "price_too_low"] /\
  issue_types
    (PriceValidator.validate
       (PriceValidator.init None (Some (Float.of_decimal false 999999 (-2))))
       [row "SKU-00001" (Py.VStr "9999.99") (Py.VInt 10);
        row "SKU-00002" (Py.VStr "9999.98") (Py.VInt 10);
        row "SKU-00003" (Py.VStr "abc") (Py.VInt 10);
        row "SKU-00004" Py.VNone (Py.VInt 10)])
  = Py.ret ["price_too_high"; "invalid_price_format"; "invalid_price_format"] /\
  Builtins.float (Py.VInt (2 ^ 1024)) = Py.raise Py.OverflowError /\
  PriceValidator.validate (PriceValidator.init None None)
    [row "SKU-00001" (Py.VInt (2 ^ 1024)) (Py.VInt 10)]
  = Py.raise Py.OverflowError.
Proof.
  split; [exact price_validate_no_overflow|].
  split; [intros r; simpl; auto|].
  vm_compute. repeat split.
Qed.

(** C4: on every record set whose inventory counts convert without overflow
    each row gets one [invalid_inventory_format] error when [int()] fails,
    else one [negative_inventory] error below [min_inventory], else one
    [low_stock_warning] error below [low_stock_threshold], else nothing; but
    an inventory count that is a float infinity ends [validate] with an
    [OverflowError] instead of an [invalid_inventory_format] error. *)
Theorem inventory_classification_and_uncaught_overflow :
  (forall self df,
     forallb (fun r => negb (int_overflows (row_inventory_count r))) df = true ->
     InventoryValidator.validate self df
     = Py.ret (flat_map (inventory_row_errors self) df)) /\
  issue_types
    (InventoryValidator.validate (InventoryValidator.init None None)
       [row "SKU-00001" (Py.VInt 1) (Py.VStr "abc");
        row "SKU-00002" (Py.VInt 1) (Py.VInt (-1));
        row "SKU-00003" (Py.VInt 1) (Py.VStr "4");
        row "SKU-00004" (Py.VInt 1) (Py.VInt 5);
        row "SKU-00005" (Py.VInt 1) (Py.VFloat S754_nan)])
  = Py.ret ["invalid_inventory_format"; "negative_inventory";
            "low_stock_warning"; "invalid_inventory_format"] /\
  Builtins.int (Py.VFloat (S754_infinity false)) = Py.raise Py.OverflowError /\
  InventoryValidator.validate (InventoryValidator.init None None)
    [row "SKU-00001" (Py.VInt 1) (Py.VFloat (S754_infinity false))]
  = Py.raise Py.OverflowError.
Proof.
  split; [exact inventory_validate_no_overflow|].
  vm_compute. repeat split.
Qed.

(** C9: [validate] of the inventory validator raises [OverflowError] exactly
    on the record sets with an infinite inventory count, and [validate] of
    the price validator raises it exactly on the record sets with an [int]
    price beyond the float range: these conversion failures leave [validate]
    instead of becoming error records. *)
Theorem validators_raise_overflow_error :
  (forall self df,
     InventoryValidator.validate self df = Py.raise Py.OverflowError <->
     forallb (fun r => negb (int_overflows (row_inventory_count r))) df = false) /\
  (forall self df,
     PriceValidator.validate self df = Py.raise Py.OverflowError <->
     forallb (fun r => negb (float_overflows (row_price r))) df = false) /\
  InventoryValidator.validate (InventoryValidator.init None None)
    [row "SKU-00001" (Py.VFloat (Float.of_decimal false 1999 (-2)))
         (Py.VFloat (S754_infinity false));
     row "SKU-00002" (Py.VFloat (Float.of_decimal false 500 (-2))) (Py.VStr "abc")]
  = Py.raise Py.OverflowError /\
  PriceValidator.validate (PriceValidator.init None None)
    [row "SKU-00001" (Py.VInt (2 ^ 1024)) (Py.VInt 3);
     row "SKU-00002" (Py.VStr "abc") (Py.VInt 3)]
  = Py.raise Py.OverflowError.
Proof.
  split; [exact inventory_validate_raises|].
  split; [exact price_validate_raises|].
  vm_compute. split; reflexivity.
Qed.

End Scenarios.

(** ** Rounding to binary64 stays below a representable bound *)

Section Rounding.

(** [0 < 2 ^ e] for a non-negative exponent, added to the context. *)
Ltac pow2_pos e :=
  pose proof (Z.pow_pos_nonneg 2 e ltac:(lia) ltac:(lia)).

Lemma digits2_pos_size p : digits2_pos p = Pos.size p.
Proof. induction p; simpl; congruence. Qed.

Lemma Zdigits2_bounds m :
  0 < m -> 2 ^ (Zdigits2 m - 1) <= m < 2 ^ Zdigits2 m.
Proof.
  destruct m as [|p|p]; try lia. intros _. simpl Zdigits2.
  rewrite digits2_pos_size.
  pose proof (Pos.size_gt p) as Hgt. pose proof (Pos.size_le p) as Hle.
  apply Pos2Z.pos_lt_pos in Hgt. apply Pos2Z.pos_le_pos in Hle.
  rewrite Pos2Z.inj_pow in Hgt, Hle.
  replace (Z.pos (Pos.size p)) with (Z.succ (Z.pos (Pos.size p) - 1)) in Hle at 1 by lia.
  rewrite Z.pow_succ_r in Hle by lia.
  change (Z.pos p~0) with (2 * Z.pos p) in Hle. lia.
Qed.

Lemma Zdigits2_nonneg m : 0 <= Zdigits2 m.
Proof. destruct m; simpl; lia. Qed.

(** A value of [d] digits below [b * 2^k] has no more digits than [b]
    shifted by [k]. *)
Lemma digits_le m b k :
  0 < m -> 0 < b -> 0 <= k -> m <= b * 2 ^ k ->
  Zdigits2 m <= Zdigits2 b + k.
Proof.
  intros Hm Hb Hk Hle.
  pose proof (Zdigits2_bounds m Hm) as [Hlo _].
  pose proof (Zdigits2_bounds b Hb) as [_ Hhi].
  pose proof (Zdigits2_nonneg b).
  assert (H2 : 2 ^ (Zdigits2 m - 1) < 2 ^ (Zdigits2 b + k)).
  { rewrite Z.pow_add_r by lia.
    pose proof (Z.pow_pos_nonneg 2 k ltac:(lia) Hk). nia. }
  apply Z.pow_lt_mono_r_iff in H2; lia.
Qed.

Lemma fexp64_mono e1 e2 : e1 <= e2 -> fexp64 e1 <= fexp64 e2.
Proof. unfold fexp64, fexp, emin. lia. Qed.

Lemma shr_1_ceiling mrs b k :
  0 <= shr_m mrs -> 0 <= k ->
  ceiling mrs <= b * 2 ^ (k + 1) ->
  0 <= shr_m (shr_1 mrs) /\ ceiling (shr_1 mrs) <= b * 2 ^ k.
Proof.
  destruct mrs as [m r s]. unfold ceiling. simpl shr_m. simpl shr_r. simpl shr_s.
  intros Hm Hk H. rewrite Z.pow_add_r in H by lia. change (2 ^ 1) with 2 in H.
  set (B := b * 2 ^ k) in *.
  assert (HB : b * (2 ^ k * 2) = 2 * B) by (unfold B; ring).
  rewrite HB in H. clear HB.
  destruct m as [|[p|p|]|p]; simpl; try lia;
    destruct r, s; simpl in *; lia.
Qed.

Lemma iter_shr_1_ceiling n : forall mrs b k,
  0 <= shr_m mrs -> 0 <= k ->
  ceiling mrs <= b * 2 ^ (k + Zpos n) ->
  0 <= shr_m (SpecFloat.iter_pos shr_1 n mrs) /\
  ceiling (SpecFloat.iter_pos shr_1 n mrs) <= b * 2 ^ k.
Proof.
  induction n as [n IH|n IH|]; intros mrs b k Hm Hk H; simpl.
  - replace (k + Z.pos n~1) with ((k + Z.pos n + Z.pos n) + 1) in H by lia.
    destruct (shr_1_ceiling mrs b (k + Z.pos n + Z.pos n)) as [H1 H2]; try lia.
    destruct (IH (shr_1 mrs) b (k + Z.pos n)) as [H3 H4]; try lia.
    apply IH; lia.
  - replace (k + Z.pos n~0) with ((k + Z.pos n) + Z.pos n) in H by lia.
    destruct (IH mrs b (k + Z.pos n)) as [H3 H4]; try lia.
    apply IH; lia.
  - apply shr_1_ceiling; lia.
Qed.

Lemma ceiling_of_loc m l :
  ceiling (shr_record_of_loc m l) =
  m + match l with loc_Exact => 0 | _ => 1 end.
Proof. destruct l as [|[]]; reflexivity. Qed.

Lemma shr_m_of_loc m l : shr_m (shr_record_of_loc m l) = m.
Proof. destruct l as [|[]]; reflexivity. Qed.

Lemma round_nearest_even_ceiling mrs :
  0 <= shr_m mrs ->
  0 <= round_nearest_even (shr_m mrs) (loc_of_shr_record mrs) <= ceiling mrs.
Proof.
  destruct mrs as [m [] []]; unfold ceiling; simpl; intros Hm;
    try destruct (Z.even m); lia.
Qed.

(** The first shift of [binary_round_aux]. *)
Lemma shr_fexp_ceiling m e l b eb :
  0 <= m -> e <= eb -> fexp64 (Zdigits2 m + e) <= eb ->
  m + match l with loc_Exact => 0 | _ => 1 end <= b * 2 ^ (eb - e) ->
  let '(mrs', e') := shr_fexp Float.prec Float.emax m e l in
  0 <= shr_m mrs' /\ e' <= eb /\ ceiling mrs' <= b * 2 ^ (eb - e').
Proof.
  intros Hm He Hf Hc. unfold shr_fexp, shr.
  fold (fexp64 (Zdigits2 m + e)).
  destruct (fexp64 (Zdigits2 m + e) - e) as [|n|n] eqn:Hn.
  - rewrite shr_m_of_loc, ceiling_of_loc. auto.
  - destruct (iter_shr_1_ceiling n (shr_record_of_loc m l) b (eb - (e + Z.pos n)))
      as [H1 H2].
    + by rewrite shr_m_of_loc.
    + lia.
    + rewrite ceiling_of_loc. replace (eb - (e + Z.pos n) + Z.pos n) with (eb - e) by lia.
      done.
    + split; [done|]. split; [lia|done].
  - rewrite shr_m_of_loc, ceiling_of_loc. auto.
Qed.

Lemma shr_1_floor mrs :
  0 <= shr_m mrs -> 0 <= shr_m (shr_1 mrs) /\ 2 * shr_m (shr_1 mrs) <= shr_m mrs.
Proof.
  destruct mrs as [m r s]. simpl shr_m at 1 3. intros Hm.
  destruct m as [|[p|p|]|p]; simpl; lia.
Qed.

Lemma iter_shr_1_floor n : forall mrs,
  0 <= shr_m mrs ->
  0 <= shr_m (SpecFloat.iter_pos shr_1 n mrs) /\
  shr_m (SpecFloat.iter_pos shr_1 n mrs) * 2 ^ Zpos n <= shr_m mrs.
Proof.
  induction n as [n IH|n IH|]; intros mrs Hm; simpl SpecFloat.iter_pos.
  - destruct (shr_1_floor mrs Hm) as [H1 H2].
    destruct (IH (shr_1 mrs) H1) as [H3 H4].
    destruct (IH _ H3) as [H5 H6]. split; [done|].
    replace (Z.pos n~1) with (Z.pos n + Z.pos n + 1) by lia.
    rewrite !Z.pow_add_r by lia. change (2 ^ 1) with 2.
    pow2_pos (Z.pos n). nia.
  - destruct (IH mrs Hm) as [H3 H4].
    destruct (IH _ H3) as [H5 H6]. split; [done|].
    replace (Z.pos n~0) with (Z.pos n + Z.pos n) by lia.
    rewrite !Z.pow_add_r by lia.
    pow2_pos (Z.pos n). nia.
  - destruct (shr_1_floor mrs Hm) as [H1 H2]. change (2 ^ 1) with 2. lia.
Qed.

(** The second shift of [binary_round_aux], on an exact value. *)
Lemma shr_fexp_floor m e b eb :
  0 <= m -> 0 < b -> e <= eb -> fexp64 (Zdigits2 b + eb) <= eb ->
  m <= b * 2 ^ (eb - e) ->
  let '(mrs', e') := shr_fexp Float.prec Float.emax m e loc_Exact in
  0 <= shr_m mrs' /\ (0 < shr_m mrs' -> e' <= eb /\ shr_m mrs' <= b * 2 ^ (eb - e')).
Proof.
  intros Hm Hb He Hcan Hle. unfold shr_fexp, shr.
  fold (fexp64 (Zdigits2 m + e)).
  destruct (fexp64 (Zdigits2 m + e) - e) as [|n|n] eqn:Hn;
    rewrite ?shr_m_of_loc.
  - auto.
  - destruct (iter_shr_1_floor n (shr_record_of_loc m loc_Exact)) as [H1 H2]; [done|].
    rewrite shr_m_of_loc in H2. split; [done|]. intros Hpos.
    assert (Hmpos : 0 < m).
    { pose proof (Z.pow_pos_nonneg 2 (Z.pos n) ltac:(lia) ltac:(lia)) as Hp.
      pose proof (Z.mul_pos_pos _ _ Hpos Hp). lia. }
    assert (Hd : Zdigits2 m + e <= Zdigits2 b + eb).
    { pose proof (digits_le m b (eb - e) Hmpos Hb ltac:(lia) Hle). lia. }
    pose proof (fexp64_mono _ _ Hd) as Hf.
    assert (He' : e + Z.pos n <= eb) by lia.
    split; [done|].
    set (x := shr_m (SpecFloat.iter_pos shr_1 n (shr_record_of_loc m loc_Exact))) in *.
    replace (eb - e) with ((eb - (e + Z.pos n)) + Z.pos n) in Hle by lia.
    rewrite Z.pow_add_r in Hle by lia.
    pow2_pos (Z.pos n).
    pow2_pos (eb - (e + Z.pos n)).
    nia.
  - auto.
Qed.

Lemma fexp64_digits_le m e b eb :
  is_bound b eb -> 0 <= m -> e <= eb -> m <= b * 2 ^ (eb - e) ->
  fexp64 (Zdigits2 m + e) <= eb.
Proof.
  intros (Hb & Hcan & _) Hm He Hle.
  destruct (Z.eq_dec m 0) as [->|Hne].
  - simpl Zdigits2. revert Hcan. unfold fexp64, fexp, emin.
    pose proof (Zdigits2_nonneg b). lia.
  - pose proof (digits_le m b (eb - e) ltac:(lia) Hb ltac:(lia) Hle) as Hd.
    etransitivity; [apply fexp64_mono|exact Hcan]. lia.
Qed.

Lemma binary_round_aux_below s mx ex lx b eb :
  is_bound b eb -> 0 <= mx -> ex <= eb ->
  mx + match lx with loc_Exact => 0 | _ => 1 end <= b * 2 ^ (eb - ex) ->
  below s b eb (binary_round_aux Float.prec Float.emax s mx ex lx).
Proof.
  intros Hbound Hmx Hex Hle.
  assert (Hf : fexp64 (Zdigits2 mx + ex) <= eb).
  { apply (fexp64_digits_le _ _ b); try done. destruct lx; lia. }
  pose proof (shr_fexp_ceiling mx ex lx b eb Hmx Hex Hf Hle) as H1.
  unfold binary_round_aux.
  destruct (shr_fexp Float.prec Float.emax mx ex lx) as [mrs' e'].
  destruct H1 as (Hm' & He' & Hc').
  pose proof (round_nearest_even_ceiling mrs' Hm') as [Hr0 Hr1].
  set (m1 := round_nearest_even (shr_m mrs') (loc_of_shr_record mrs')) in *.
  destruct Hbound as (Hb & Hcan & Hmax).
  pose proof (shr_fexp_floor m1 e' b eb Hr0 Hb He' Hcan ltac:(lia)) as H2.
  destruct (shr_fexp Float.prec Float.emax m1 e' loc_Exact) as [mrs'' e''].
  destruct H2 as [H20 H2].
  destruct (shr_m mrs'') as [|m|m] eqn:Hm''; simpl.
  - done.
  - destruct H2 as [He'' Hle'']; [lia|].
    destruct (Z.leb_spec e'' (Float.emax - Float.prec)) as [_|Habs]; [|lia].
    simpl. auto.
  - lia.
Qed.

Lemma ratio_le_scaled p q b eb k :
  0 <= k -> 0 <= eb + k -> 0 < q -> ratio_le p q b eb ->
  p * 2 ^ k <= b * 2 ^ (eb + k) * q.
Proof.
  unfold ratio_le. intros Hk Hek Hq H.
  destruct (Z.le_gt_cases 0 eb) as [Heb|Heb].
  - rewrite Z.max_l in H by lia. rewrite Z.max_r in H by lia.
    rewrite Z.pow_add_r by lia. change (2 ^ 0) with 1 in H.
    pose proof (Z.pow_pos_nonneg 2 k ltac:(lia) Hk). nia.
  - rewrite Z.max_r in H by lia. rewrite Z.max_l in H by lia.
    change (2 ^ 0) with 1 in H.
    replace k with (- eb + (eb + k)) at 1 by lia.
    rewrite Z.pow_add_r by lia.
    pose proof (Z.pow_pos_nonneg 2 (eb + k) ltac:(lia) Hek). nia.
Qed.

Lemma new_location_exact nb k :
  match new_location nb k with loc_Exact => 0 | _ => 1 end =
  if k =? 0 then 0 else 1.
Proof.
  unfold new_location, new_location_even, new_location_odd.
  destruct (Z.even nb); destruct (k =? 0); reflexivity.
Qed.

Lemma of_ratio_below s p q b eb :
  is_bound b eb -> ratio_le (Zpos p) (Zpos q) b eb ->
  below s b eb (Float.of_ratio s p q).
Proof.
  intros Hbound Hle. unfold Float.of_ratio, SFdiv_core_binary.
  fold (fexp64 (Zdigits2 (Z.pos p) + 0 - (Zdigits2 (Z.pos q) + 0))).
  set (d1 := Zdigits2 (Z.pos p)). set (d2 := Zdigits2 (Z.pos q)).
  set (e' := Z.min (fexp64 (d1 + 0 - (d2 + 0))) (0 - 0)).
  assert (He'0 : e' <= 0) by (unfold e'; lia).
  assert (He' : e' <= eb).
  { destruct (Z.le_gt_cases 0 eb) as [Heb|Heb]; [lia|].
    assert (Hd : d1 - d2 <= Zdigits2 b + eb).
    { destruct Hbound as (Hb & _ & _).
      pose proof (ratio_le_scaled (Z.pos p) (Z.pos q) b eb (- eb) ltac:(lia) ltac:(lia) ltac:(lia) Hle) as H.
      replace (eb + - eb) with 0 in H by lia. change (2 ^ 0) with 1 in H.
      pose proof (Zdigits2_bounds (Z.pos p) ltac:(lia)) as [Hp _].
      pose proof (Zdigits2_bounds (Z.pos q) ltac:(lia)) as [_ Hq].
      pose proof (Zdigits2_bounds b Hb) as [_ Hb'].
      fold d1 in Hp. fold d2 in Hq.
      pose proof (Zdigits2_nonneg b). pose proof (Zdigits2_nonneg (Z.pos q)) as Hd2.
      fold d2 in Hd2.
      assert (Hd1 : 0 < d1) by (unfold d1; simpl; lia).
      assert (H2 : 2 ^ (d1 - 1 + - eb) < 2 ^ (Zdigits2 b + d2)).
      { rewrite !Z.pow_add_r by lia.
        pow2_pos (- eb).
        pow2_pos (d1 - 1).
        nia. }
      apply Z.pow_lt_mono_r_iff in H2; lia. }
    destruct Hbound as (_ & Hcan & _).
    pose proof (fexp64_mono _ _ Hd). unfold e'.
    replace (d1 + 0 - (d2 + 0)) with (d1 - d2) by lia. lia. }
  replace (0 - 0 - e') with (- e') by lia.
  set (m' := match - e' with
             | 0 => Z.pos p
             | Z.pos _ => Z.shiftl (Z.pos p) (- e')
             | Z.neg _ => 0
             end).
  assert (Hm' : m' = Z.pos p * 2 ^ (- e')).
  { unfold m'. destruct (- e') as [|k|k] eqn:Hk; try lia.
    - rewrite Z.shiftl_mul_pow2; lia. }
  pose proof (Z.div_eucl_eq m' (Z.pos q) ltac:(lia)) as Hdiv.
  pose proof (Z.mod_pos_bound m' (Z.pos q) ltac:(lia)) as Hmod.
  unfold Z.modulo in Hmod.
  destruct (Z.div_eucl m' (Z.pos q)) as [q' r].
  pose proof (ratio_le_scaled (Z.pos p) (Z.pos q) b eb (- e') ltac:(lia) ltac:(lia) ltac:(lia) Hle) as HN.
  rewrite <- Hm' in HN. replace (eb + - e') with (eb - e') in HN by lia.
  apply binary_round_aux_below; try done.
  - assert (0 <= m') by lia. nia.
  - rewrite new_location_exact.
    set (N := b * 2 ^ (eb - e')) in *.
    destruct (Z.eqb_spec r 0); nia.
Qed.

Lemma below_not_infinite s b eb x :
  below s b eb x -> Float.is_infinite x = false.
Proof. by destruct x. Qed.

Lemma below_leb b eb x :
  below false b eb x ->
  Float.leb (S754_zero false) x = true /\
  Float.leb x (S754_finite false (Z.to_pos b) eb) = true.
Proof.
  destruct x as [s'|s'| |s' m e]; simpl; try done.
  intros (-> & He & Hm). split; [done|].
  unfold Float.leb, SFleb, SFcompare.
  destruct (Z.compare_spec e eb) as [->|Hlt|Hgt]; try done; [|lia].
  rewrite Z.sub_diag in Hm. change (2 ^ 0) with 1 in Hm.
  change (Pos.compare_cont Eq m (Z.to_pos b)) with (Pos.compare m (Z.to_pos b)).
  destruct (Pos.compare_spec m (Z.to_pos b)) as [_|_|Hgt]; try done.
  lia.
Qed.

Lemma truediv_below x y b eb :
  is_bound b eb -> y <> 0 -> ratio_le (Z.abs x) (Z.abs y) b eb ->
  exists q, Num.truediv x y = Py.ret q /\
            below (xorb (x <? 0) (y <? 0)) b eb q.
Proof.
  intros Hbound Hy Hle. unfold Num.truediv.
  destruct y as [|y|y]; try done;
    (destruct x as [|x|x]; [by eexists|..]);
    match goal with
    | |- context [Float.of_ratio ?s ?p ?q] =>
        pose proof (of_ratio_below s p q b eb Hbound Hle) as Hb;
        rewrite (below_not_infinite _ _ _ _ Hb); by eexists
    end.
Qed.

Lemma of_Z_100 : Float.of_Z 100 = S754_finite false hundred (-46).
Proof. reflexivity. Qed.

Lemma mul_100_below s b eb b' eb' x :
  below s b eb x -> is_bound b' eb' -> eb - 46 <= eb' ->
  b * Zpos hundred <= b' * 2 ^ (eb' - eb + 46) ->
  below s b' eb' (Float.mul x (Float.of_Z 100)).
Proof.
  intros Hx Hbound He Hb. rewrite of_Z_100.
  destruct x as [s'|s'| |s' m e]; simpl in Hx; try done.
  - subst s'. simpl. by destruct s.
  - destruct Hx as (-> & Hle & Hm).
    unfold Float.mul, SFmul. rewrite xorb_false_r.
    apply binary_round_aux_below; try done; try lia.
    rewrite Z.add_0_r, Pos2Z.inj_mul.
    replace (eb' - (e + -46)) with ((eb' - eb + 46) + (eb - e)) by lia.
    rewrite Z.pow_add_r by lia.
    pow2_pos (eb - e).
    pow2_pos (eb' - eb + 46).
    nia.
Qed.

Lemma round_half_even_le num den n :
  0 <= num -> 0 < den -> num <= n * den ->
  0 <= Num.round_half_even num den <= n.
Proof.
  intros Hnum Hden Hle. unfold Num.round_half_even.
  pose proof (Z.div_mod num den ltac:(lia)) as Hdm.
  pose proof (Z.mod_pos_bound num den Hden) as Hmod.
  pose proof (Z.div_pos num den Hnum Hden) as Hq.
  set (q := num / den) in *. set (r := num mod den) in *.
  assert (Hqn : q <= n) by nia.
  destruct (Z.compare_spec (2 * r) den) as [Heq|Hlt|Hgt];
    try destruct (Z.even q); nia.
Qed.

(** [round(x, 2)] stays below a bound [b * 2^eb] when [100 * b * 2^eb] is
    below an integer [n] and [n / 100] is below the bound. *)
Lemma round2_float_below s b eb n x :
  below s b eb x -> is_bound b eb ->
  100 * b * 2 ^ Z.max 0 eb <= n * 2 ^ Z.max 0 (- eb) ->
  ratio_le n 100 b eb ->
  exists r, Num.round2_float x = Py.ret r /\ below s b eb r.
Proof.
  intros Hx Hbound Hn Hratio.
  destruct x as [s'|s'| |s' m e]; simpl in Hx; try done.
  - subst s'. by eexists.
  - destruct Hx as (-> & He & Hm). unfold Num.round2_float.
    set (k := match e with
              | Z.neg k => Num.round_half_even (Z.pos m * 100) (2 ^ Z.pos k)
              | _ => Z.pos m * 2 ^ e * 100
              end).
    assert (Hb : 0 < b) by apply Hbound.
    assert (Hk : 0 <= k <= n).
    { pose proof (Z.pow_pos_nonneg 2 (eb - e) ltac:(lia) ltac:(lia)) as Hp1.
      pose proof (Z.pow_pos_nonneg 2 (Z.max 0 eb) ltac:(lia) ltac:(lia)) as Hp2.
      pose proof (Z.pow_pos_nonneg 2 (Z.max 0 (- eb)) ltac:(lia) ltac:(lia)) as Hp3.
      assert (Hscale : Z.pos m * 100 * 2 ^ Z.max 0 e <= n * 2 ^ Z.max 0 (- e)).
      { pose proof (Z.pow_pos_nonneg 2 (Z.max 0 e) ltac:(lia) ltac:(lia)) as Hp4.
        pose proof (Z.pow_pos_nonneg 2 (Z.max 0 (- e)) ltac:(lia) ltac:(lia)) as Hp5.
        (* 100 * m * 2^e <= 100 * b * 2^eb <= n *)
        assert (H1 : Z.pos m * 100 * 2 ^ Z.max 0 e * 2 ^ Z.max 0 (- eb)
                     <= 100 * b * 2 ^ Z.max 0 eb * 2 ^ Z.max 0 (- e)).
        { assert (Hexp : Z.max 0 eb + Z.max 0 (- e)
                         = (eb - e) + (Z.max 0 e + Z.max 0 (- eb))) by lia.
          rewrite <- (Z.mul_assoc (100 * b)), <- Z.pow_add_r, Hexp by lia.
          rewrite (Z.pow_add_r 2 (eb - e)) by lia.
          rewrite (Z.pow_add_r 2 (Z.max 0 e)) by lia.
          nia. }
        assert (H2 : 100 * b * 2 ^ Z.max 0 eb * 2 ^ Z.max 0 (- e)
                     <= n * 2 ^ Z.max 0 (- eb) * 2 ^ Z.max 0 (- e)) by nia.
        nia. }
      unfold k. destruct e as [|e|e].
      - change (2 ^ 0) with 1. change (Z.max 0 (- 0)) with 0 in Hscale.
        change (Z.max 0 0) with 0 in Hscale. change (2 ^ 0) with 1 in Hscale. lia.
      - rewrite Z.max_r in Hscale by lia. rewrite Z.max_l in Hscale by lia.
        change (2 ^ 0) with 1 in Hscale. lia.
      - rewrite Z.max_l in Hscale by lia. rewrite Z.max_r in Hscale by lia.
        change (2 ^ 0) with 1 in Hscale. change (- Z.neg e) with (Z.pos e) in Hscale.
        apply round_half_even_le; lia. }
    assert (Hbelow : below s b eb (Float.of_decimal s k (-2))).
    { unfold Float.of_decimal. destruct k as [|k'|k'] eqn:Hk'; try lia; [done|].
      apply of_ratio_below; [done|].
      unfold ratio_le in *. change (Z.pos (10 ^ 2)) with 100.
      pow2_pos (Z.max 0 (- eb)). nia. }
    rewrite (below_not_infinite _ _ _ _ Hbelow). by eexists.
Qed.

End Rounding.

(** ** Facts about [calculate_metrics] *)

Section MetricsFacts.

Import Py Num Metrics.

Lemma sku_set_foldl errs : forall s : gset key,
  foldl (fun s err => {[sku err]} ∪ s) s errs = list_to_set (map sku errs) ∪ s.
Proof.
  induction errs as [|e errs IH]; intros s; simpl.
  - set_solver.
  - rewrite IH. set_solver.
Qed.

Lemma sku_set_list errs : sku_set errs = list_to_set (map sku errs).
Proof. unfold sku_set. rewrite sku_set_foldl. set_solver. Qed.

Lemma sku_set_size_distinct errs (l : list key) :
  NoDup l -> (forall k, k ∈ l <-> k ∈ map sku errs) ->
  size (sku_set errs) = length l.
Proof.
  intros Hnd Hl. rewrite <- (size_list_to_set (C := gset key) l Hnd).
  f_equal. rewrite sku_set_list. apply set_eq. intros k.
  rewrite !elem_of_list_to_set. by rewrite Hl.
Qed.

Lemma size_list_to_set_le (l : list key) :
  (size (list_to_set (C := gset key) l) <= length l)%nat.
Proof.
  induction l as [|k l IH]; cbn [length].
  - by rewrite list_to_set_nil, size_empty.
  - rewrite list_to_set_cons, size_union_alt, size_singleton.
    pose proof (subseteq_size (list_to_set l ∖ {[k]})
                  (list_to_set (C := gset key) l)) as Hs.
    assert (Hsub : (list_to_set l ∖ {[k]} : gset key) ⊆ list_to_set l)
      by set_solver.
    specialize (Hs Hsub). lia.
Qed.

Lemma sku_set_size_le errs : (size (sku_set errs) <= length errs)%nat.
Proof.
  rewrite sku_set_list. etransitivity; [apply size_list_to_set_le|].
  by rewrite length_map.
Qed.

Lemma sku_set_size_le_records errs (df : dataframe) :
  (forall e, e ∈ errs -> sku e ∈ map row_sku df) ->
  (size (sku_set errs) <= length df)%nat.
Proof.
  intros Hwf. rewrite sku_set_list.
  etransitivity; [apply (subseteq_size _ (list_to_set (map row_sku df)))|].
  - intros k. rewrite !elem_of_list_to_set. intros Hk.
    apply list_elem_of_In, in_map_iff in Hk. destruct Hk as (e & <- & He).
    apply Hwf. by apply list_elem_of_In.
  - etransitivity; [apply size_list_to_set_le|]. by rewrite length_map.
Qed.

Lemma rounded_percentage_below valid total b eb b' eb' n :
  0 < total ->
  is_bound b eb -> ratio_le (Z.abs valid) total b eb ->
  is_bound b' eb' -> eb - 46 <= eb' ->
  b * Zpos hundred <= b' * 2 ^ (eb' - eb + 46) ->
  100 * b' * 2 ^ Z.max 0 eb' <= n * 2 ^ Z.max 0 (- eb') ->
  ratio_le n 100 b' eb' ->
  exists r, rounded_percentage valid total = ret (NFloat r) /\
            below (valid <? 0) b' eb' r.
Proof.
  intros Htotal Hb Hratio Hb' He Hmul Hn Hn'.
  destruct (truediv_below valid total b eb Hb ltac:(lia)) as (q & Hq & Hqb).
  { by rewrite (Z.abs_eq total) by lia. }
  replace (total <? 0) with false in Hqb by (symmetry; apply Z.ltb_ge; lia).
  rewrite xorb_false_r in Hqb.
  pose proof (mul_100_below _ _ _ _ _ _ Hqb Hb' He Hmul) as Hm.
  destruct (round2_float_below _ _ _ _ _ Hm Hb' Hn Hn') as (r & Hr & Hrb).
  exists r. split; [|done].
  unfold rounded_percentage. rewrite Hq. unfold bind, ret, round2.
  cbv beta iota. unfold bind, ret. by rewrite Hr.
Qed.

Lemma calculate_metrics_positive errors total score :
  0 < total ->
  rounded_percentage (total - Z.of_nat (size (sku_set errors))) total = ret score ->
  calculate_metrics errors total
  = ret (mkMetrics total (total - Z.of_nat (size (sku_set errors)))
           (Z.of_nat (size (sku_set errors))) score (len errors)
           (IssueCounter.most_common 5
              (IssueCounter.of_list (map issue_type errors)))).
Proof.
  intros Htotal Hscore. unfold calculate_metrics.
  replace (0 <? total) with true by (symmetry; apply Z.ltb_lt; lia).
  unfold rounded_percentage in Hscore.
  destruct (truediv _ _) as [e|q]; simpl in *; [done|].
  destruct (round2_float _) as [e|r]; simpl in *; [done|].
  by injection Hscore as <-.
Qed.

Lemma calculate_metrics_nonpositive errors total :
  total <= 0 ->
  calculate_metrics errors total
  = ret (mkMetrics total (total - Z.of_nat (size (sku_set errors)))
           (Z.of_nat (size (sku_set errors))) (NInt 0) (len errors)
           (IssueCounter.most_common 5
              (IssueCounter.of_list (map issue_type errors)))).
Proof.
  intros Htotal. unfold calculate_metrics.
  by replace (0 <? total) with false by (symmetry; apply Z.ltb_ge; lia).
Qed.

Lemma bound_2_63 : is_bound (2 ^ 52) 11.
Proof. unfold is_bound. vm_compute. repeat split; discriminate. Qed.

Lemma bound_100_2_63 : is_bound (Zpos hundred) 17.
Proof. unfold is_bound. vm_compute. repeat split; discriminate. Qed.

Lemma bound_1 : is_bound (2 ^ 52) (-52).
Proof. unfold is_bound. vm_compute. repeat split; discriminate. Qed.

Lemma bound_100 : is_bound (Zpos hundred) (-46).
Proof. unfold is_bound. vm_compute. repeat split; discriminate. Qed.

(** C1: for an error list of a length [len()] can return,
    [calculate_metrics] returns a dict whose [invalid_records] is the number
    of distinct skus of the error list, whose [valid_records] is
    [total_records - invalid_records], whose [total_errors] is the length of
    the error list, and whose [data_integrity_score] is
    [round(valid_records / total_records * 100, 2)] when [total_records > 0]
    and 0 otherwise; no division by zero occurs. *)
Theorem calculate_metrics_fields (validation_errors : list error) (total : Z) :
  len validation_errors < 2 ^ 63 ->
  exists m,
    calculate_metrics validation_errors total = ret m /\
    total_records m = total /\
    (forall distinct : list key,
       NoDup distinct ->
       (forall k, k ∈ distinct <-> k ∈ map sku validation_errors) ->
       invalid_records m = len distinct) /\
    valid_records m = total - invalid_records m /\
    total_errors m = len validation_errors /\
    (0 < total ->
     rounded_percentage (valid_records m) total
     = ret (data_integrity_score m)) /\
    (total <= 0 -> data_integrity_score m = NInt 0).
Proof.
  intros Hlen. unfold len in Hlen.
  pose proof (sku_set_size_le validation_errors) as Hsize.
  set (invalid := Z.of_nat (size (sku_set validation_errors))) in *.
  assert (Hdistinct : forall distinct : list key,
             NoDup distinct ->
             (forall k, k ∈ distinct <-> k ∈ map sku validation_errors) ->
             invalid = len distinct).
  { intros l Hnd Hl. unfold invalid, len.
    by rewrite (sku_set_size_distinct _ l Hnd Hl). }
  destruct (Z.lt_ge_cases 0 total) as [Hpos|Hnonpos].
  - assert (Hratio : ratio_le (Z.abs (total - invalid)) total (2 ^ 52) 11).
    { unfold ratio_le. change (Z.max 0 (Z.opp 11)) with 0. change (Z.max 0 11) with 11.
      change (2 ^ 0) with 1. change (2 ^ 52 * 2 ^ 11) with (2 ^ 63).
      assert (Hinv : 0 <= invalid < 2 ^ 63) by (unfold invalid; lia).
      clearbody invalid. revert Hinv. generalize (2 ^ 63). intros P HP.
      assert (Z.abs (total - invalid) <= total \/ Z.abs (total - invalid) <= P)
        as [H|H] by lia; nia. }
    destruct (rounded_percentage_below (total - invalid) total
                (2 ^ 52) 11 (Zpos hundred) 17 (100 * 100 * 2 ^ 63)
                Hpos bound_2_63 Hratio bound_100_2_63
                ltac:(by vm_compute) ltac:(by vm_compute) ltac:(by vm_compute)
                ltac:(by vm_compute))
      as (r & Hr & _).
    eexists. split; [apply calculate_metrics_positive; eassumption|].
    simpl. repeat split; try done. lia.
  - eexists. split; [by apply calculate_metrics_nonpositive|].
    simpl. repeat split; try done. lia.
Qed.

Lemma calculate_metrics_fields_witness :
  let errors := [mkError (KStr "SKU-00001") "price_too_low" [];
                 mkError (KStr "SKU-00001") "duplicate_sku" [];
                 mkError (KStr "SKU-00002") "low_stock_warning" []] in
  len errors < 2 ^ 63 /\
  exists m,
    calculate_metrics errors 3 = ret m /\
    total_records m = 3 /\
    (forall distinct : list key,
       NoDup distinct ->
       (forall k, k ∈ distinct <-> k ∈ map sku errors) ->
       invalid_records m = len distinct) /\
    valid_records m = 3 - invalid_records m /\
    total_errors m = len errors /\
    (0 < 3 -> rounded_percentage (valid_records m) 3 = ret (data_integrity_score m)) /\
    (3 <= 0 -> data_integrity_score m = NInt 0).
Proof.
  split; [reflexivity | apply calculate_metrics_fields; reflexivity].
Defined.

(** The bounds hold as soon as the number of distinct skus of the error list
    does not exceed a positive [total_records]. *)
Lemma metrics_bounds_of_size (errors : list error) (total : Z) :
  0 < total -> Z.of_nat (size (sku_set errors)) <= total ->
  exists m score,
    calculate_metrics errors total = ret m /\
    data_integrity_score m = NFloat score /\
    invalid_records m <= total_records m /\
    Float.leb (Float.of_Z 0) score = true /\
    Float.leb score (Float.of_Z 100) = true.
Proof.
  intros Hpos Hsize.
  set (invalid := Z.of_nat (size (sku_set errors))) in *.
  assert (Hinv : 0 <= invalid <= total) by (unfold invalid; lia).
  assert (Hratio : ratio_le (Z.abs (total - invalid)) total (2 ^ 52) (-52)).
  { unfold ratio_le. change (Z.max 0 (Z.opp (-52))) with 52.
    change (Z.max 0 (-52)) with 0. change (2 ^ 0) with 1. lia. }
  destruct (rounded_percentage_below (total - invalid) total
              (2 ^ 52) (-52) (Zpos hundred) (-46) (100 * 100)
              Hpos bound_1 Hratio bound_100
              ltac:(by vm_compute) ltac:(by vm_compute) ltac:(by vm_compute)
              ltac:(by vm_compute))
    as (r & Hr & Hbelow).
  replace (total - invalid <? 0) with false in Hbelow
    by (symmetry; apply Z.ltb_ge; lia).
  destruct (below_leb _ _ _ Hbelow) as [Hlo Hhi].
  exists (mkMetrics total (total - invalid) invalid (NFloat r)
            (len errors)
            (IssueCounter.most_common 5
               (IssueCounter.of_list (map issue_type errors)))), r.
  split; [by apply calculate_metrics_positive|].
  simpl. repeat split; try done; lia.
Qed.

(** The errors the validation stage merges refer to skus of the frame. *)
Lemma all_errors_skus (df : dataframe) (errors : list error) :
  Main.all_errors df = ret errors ->
  forall e, e ∈ errors -> sku e ∈ map row_sku df.
Proof.
  unfold Main.all_errors, BaseValidator.validate,
    price_validator, sku_validator, inventory_validator.
  destruct (PriceValidator.validate _ df) as [ex|pe] eqn:Hp; simpl; [done|].
  destruct (InventoryValidator.validate _ df) as [ex|ie] eqn:Hi; simpl; [done|].
  intros [= <-] e. rewrite !elem_of_app. intros [H|[H|H]].
  - by eapply price_validate_skus.
  - by eapply sku_validate_skus.
  - by eapply inventory_validate_skus.
Qed.

(** The metrics of the pipeline of main.py are within bounds whenever its
    validation stage returns. *)
Lemma pipeline_metrics_within_bounds (df : dataframe) (errors : list error) :
  0 < len df -> Main.all_errors df = ret errors ->
  exists m score,
    Main.metrics df = ret m /\
    data_integrity_score m = NFloat score /\
    invalid_records m <= total_records m /\
    Float.leb (Float.of_Z 0) score = true /\
    Float.leb score (Float.of_Z 100) = true.
Proof.
  intros Hpos Herrors. unfold Main.metrics. rewrite Herrors. simpl bind.
  apply metrics_bounds_of_size; [done|].
  pose proof (sku_set_size_le_records errors df (all_errors_skus df errors Herrors)).
  unfold len. lia.
Qed.

(** C7: when every sku of the error list belongs to the record set and the
    record set is not empty, [calculate_metrics], called with the size of the
    record set, returns [invalid_records <= total_records] and
    [0 <= data_integrity_score <= 100]. *)
Theorem metrics_within_bounds (df : dataframe) (validation_errors : list error) :
  (forall e, e ∈ validation_errors -> sku e ∈ map row_sku df) ->
  0 < len df ->
  exists m score,
    calculate_metrics validation_errors (len df) = ret m /\
    data_integrity_score m = NFloat score /\
    invalid_records m <= total_records m /\
    Float.leb (Float.of_Z 0) score = true /\
    Float.leb score (Float.of_Z 100) = true.
Proof.
  intros Hwf Hpos. apply metrics_bounds_of_size; [done|].
  pose proof (sku_set_size_le_records validation_errors df Hwf).
  unfold len. lia.
Qed.

Lemma metrics_within_bounds_witness :
  let df := [mkRecord (KStr "SKU-00001") (VInt 0) (VInt 3) VNone;
             mkRecord (KStr "SKU-00002") (VStr "19.99") (VInt 30) VNone;
             mkRecord (KStr "SKU-00001") (VInt 7) (VStr "abc") VNone;
             mkRecord (KStr "SKU-4") (VStr "12.50") (VInt 12) VNone] in
  let errors := [mkError (KStr "SKU-00001") "price_too_low" [];
                 mkError (KStr "SKU-00001") "duplicate_sku" [];
                 mkError (KStr "SKU-4") "invalid_sku_format" [];
                 mkError (KStr "SKU-00001") "low_stock_warning" [];
                 mkError (KStr "SKU-00001") "invalid_inventory_format" []] in
  (forall e, e ∈ errors -> sku e ∈ map row_sku df) /\
  0 < len df /\
  exists m score,
    calculate_metrics errors (len df) = ret m /\
    data_integrity_score m = NFloat score /\
    invalid_records m <= total_records m /\
    Float.leb (Float.of_Z 0) score = true /\
    Float.leb score (Float.of_Z 100) = true.
Proof.
  assert (H : forall e,
             e ∈ [mkError (KStr "SKU-00001") "price_too_low" [];
                  mkError (KStr "SKU-00001") "duplicate_sku" [];
                  mkError (KStr "SKU-4") "invalid_sku_format" [];
                  mkError (KStr "SKU-00001") "low_stock_warning" [];
                  mkError (KStr "SKU-00001") "invalid_inventory_format" []] ->
             sku e ∈ [KStr "SKU-00001"; KStr "SKU-00002"; KStr "SKU-00001";
                      KStr "SKU-4"]).
  { intros e He. repeat (apply elem_of_cons in He as [->|He]);
      [simpl; rewrite !elem_of_cons; auto..|by apply elem_of_nil in He]. }
  split; [exact H|]. split; [reflexivity|].
  apply metrics_within_bounds; [exact H | reflexivity].
Defined.

Example pipeline_on_four_rows :
  let df := [mkRecord (KStr "SKU-00001") (VInt 0) (VInt 3) VNone;
             mkRecord (KStr "SKU-00002") (VStr "19.99") (VInt 30) VNone;
             mkRecord (KStr "SKU-00001") (VInt 7) (VStr "abc") VNone;
             mkRecord (KStr "SKU-4") (VStr "12.50") (VInt 12) VNone] in
  bind (Main.all_errors df) (fun errors => ret (map issue_type errors))
  = ret ["price_too_low"; "duplicate_sku"; "invalid_sku_format";
         "low_stock_warning"; "invalid_inventory_format"] /\
  bind (Main.metrics df)
       (fun m => ret (invalid_records m, valid_records m, total_errors m,
                      data_integrity_score m, top_5_issues m))
  = ret (2, 2, 5, NFloat (Float.of_decimal false 50 0),
         [("price_too_low", 1%nat); ("duplicate_sku", 1%nat);
          ("invalid_sku_format", 1%nat); ("low_stock_warning", 1%nat);
          ("invalid_inventory_format", 1%nat)]).
Proof. vm_compute. split; reflexivity. Qed.

End MetricsFacts.

(** ** Facts about the ranking of issue types *)

Section Ranking.

Import IssueCounter.

Lemma count_of_add c t t' :
  count_of (add c t) t' =
  if decide (t = t') then S (count_of c t') else count_of c t'.
Proof.
  induction c as [|[k n] c IH]; simpl.
  - destruct (decide (t = t')); reflexivity.
  - destruct (decide (k = t)) as [->|Hkt]; simpl.
    + destruct (decide (t = t')); reflexivity.
    + rewrite IH. destruct (decide (k = t')) as [->|Hkt'].
      * destruct (decide (t = t')); congruence.
      * reflexivity.
Qed.

Lemma keys_add c t :
  map fst (add c t) =
  if decide (t ∈ map fst c) then map fst c else map fst c ++ [t].
Proof.
  induction c as [|[k n] c IH]; simpl.
  - destruct (decide (t ∈ [])) as [H|_]; [by apply elem_of_nil in H|done].
  - destruct (decide (k = t)) as [->|Hkt]; simpl.
    + destruct (decide (t ∈ t :: map fst c)) as [_|H]; [done|].
      exfalso. apply H, elem_of_cons. auto.
    + rewrite IH. destruct (decide (t ∈ map fst c)) as [Hin|Hnin].
      * destruct (decide (t ∈ k :: map fst c)) as [_|H]; [done|].
        exfalso. apply H, elem_of_cons. auto.
      * destruct (decide (t ∈ k :: map fst c)) as [H|_]; [|done].
        apply elem_of_cons in H as [->|H]; done.
Qed.

Lemma occurrences_snoc t p x :
  occurrences t (p ++ [x]) =
  if decide (x = t) then S (occurrences t p) else occurrences t p.
Proof.
  unfold occurrences. rewrite filter_app, length_app, (filter_cons _ x).
  destruct (decide (x = t)); simpl; lia.
Qed.

Lemma occurrences_pos t p : (0 < occurrences t p)%nat <-> t ∈ p.
Proof.
  unfold occurrences. induction p as [|x p IH].
  - simpl. split; [lia|]. by intros H%elem_of_nil.
  - rewrite (filter_cons _ x), elem_of_cons.
    destruct (decide (x = t)) as [->|Hne]; simpl.
    + split; [auto|lia].
    + rewrite IH. split; [auto|]. intros [->|H]; done.
Qed.

Lemma first_index_lt t p : t ∈ p -> (first_index t p < length p)%nat.
Proof.
  induction p as [|x p IH]; [by intros H%elem_of_nil|].
  intros H. simpl. destruct (decide (x = t)); [lia|].
  apply elem_of_cons in H as [->|H]; [done|]. apply IH in H. lia.
Qed.

Lemma first_index_snoc_in t p x :
  t ∈ p -> first_index t (p ++ [x]) = first_index t p.
Proof.
  induction p as [|y p IH]; [by intros H%elem_of_nil|].
  intros H. simpl. destruct (decide (y = t)); [done|].
  apply elem_of_cons in H as [->|H]; [done|]. by rewrite IH.
Qed.

Lemma first_index_snoc_fresh t p :
  t ∉ p -> first_index t (p ++ [t]) = length p.
Proof.
  induction p as [|y p IH]; intros H; simpl.
  - by destruct (decide (t = t)).
  - destruct (decide (y = t)) as [->|Hne].
    + exfalso. apply H, elem_of_cons. auto.
    + rewrite IH; [done|]. intros Hin. apply H, elem_of_cons. auto.
Qed.

Lemma StronglySorted_impl_elem {A} (R R' : relation A) (l : list A) :
  (forall a b, a ∈ l -> b ∈ l -> R a b -> R' a b) ->
  StronglySorted R l -> StronglySorted R' l.
Proof.
  induction l as [|x l IH]; intros Himp Hs; [constructor|].
  apply StronglySorted_cons in Hs as [Hall Hs].
  apply StronglySorted_cons. split.
  - rewrite Forall_forall in *. intros y Hy. apply Himp.
    + apply elem_of_cons; auto.
    + apply elem_of_cons; auto.
    + by apply Hall.
  - apply IH; [|done]. intros a b Ha Hb. apply Himp; apply elem_of_cons; auto.
Qed.

Lemma of_list_counts p : counts_prefix (of_list p) p.
Proof.
  induction p as [|x p IH] using rev_ind.
  - repeat split; try done; constructor.
  - destruct IH as (Hcount & Hkeys & Hsorted).
    unfold of_list in *. rewrite foldl_snoc.
    set (c := foldl add [] p) in *.
    repeat split.
    + intros t. rewrite count_of_add, occurrences_snoc, Hcount. done.
    + rewrite keys_add. destruct (decide (x ∈ map fst c)) as [Hin|Hnin].
      * rewrite Hkeys, elem_of_app. auto.
      * rewrite !elem_of_app, Hkeys. auto.
    + rewrite keys_add. destruct (decide (x ∈ map fst c)) as [Hin|Hnin].
      * rewrite Hkeys, elem_of_app, list_elem_of_singleton.
        intros [H| ->]; [done|]. by apply Hkeys.
      * rewrite !elem_of_app, Hkeys. auto.
    + assert (Hold : StronglySorted
                       (fun a b => (first_index a (p ++ [x]) < first_index b (p ++ [x]))%nat)
                       (map fst c)).
      { eapply StronglySorted_impl_elem; [|exact Hsorted].
        intros a b Ha Hb Hlt. simpl in Hlt.
        rewrite !first_index_snoc_in by (by apply Hkeys). done. }
      rewrite keys_add. destruct (decide (x ∈ map fst c)) as [Hin|Hnin]; [done|].
      apply StronglySorted_app_2; [|done|repeat constructor].
      intros a b Ha Hb. apply list_elem_of_singleton in Hb as ->.
      rewrite first_index_snoc_in by (by apply Hkeys).
      rewrite first_index_snoc_fresh by (by rewrite <- Hkeys).
      apply first_index_lt. by apply Hkeys.
Qed.

Lemma insert_Permutation x l : insert x l ≡ₚ x :: l.
Proof.
  induction l as [|y l IH]; simpl; [done|].
  destruct (snd x <? snd y)%nat; [|done].
  rewrite IH. apply Permutation_swap.
Qed.

Lemma sorted_by_count_Permutation l : sorted_by_count l ≡ₚ l.
Proof.
  induction l as [|x l IH]; simpl; [done|].
  by rewrite insert_Permutation, IH.
Qed.

Lemma insert_sorted (K : relation (string * nat)) x s :
  StronglySorted (stable_order K) s -> Forall (K x) s ->
  StronglySorted (stable_order K) (insert x s).
Proof.
  induction s as [|y s IH]; intros Hs Hx; simpl.
  - repeat constructor.
  - apply StronglySorted_cons in Hs as [Hy Hs].
    apply Forall_cons in Hx as [Hxy Hx].
    destruct (Nat.ltb_spec (snd x) (snd y)) as [Hlt|Hge].
    + apply StronglySorted_cons. split; [|by apply IH].
      rewrite insert_Permutation. apply Forall_cons. split; [by left|done].
    + apply StronglySorted_cons. split; [|by apply StronglySorted_cons].
      apply Forall_cons. split.
      * unfold stable_order. destruct (decide (snd x = snd y)); [auto|left; lia].
      * rewrite Forall_forall in *. intros z Hz.
        specialize (Hy z Hz). specialize (Hx z Hz). unfold stable_order in *.
        destruct (decide (snd x = snd z)); [auto|left; lia].
Qed.

Lemma sorted_by_count_sorted (K : relation (string * nat)) l :
  StronglySorted K l -> StronglySorted (stable_order K) (sorted_by_count l).
Proof.
  induction l as [|x l IH]; intros Hs; simpl; [constructor|].
  apply StronglySorted_cons in Hs as [Hx Hs].
  apply insert_sorted; [by apply IH|].
  by rewrite sorted_by_count_Permutation.
Qed.

Lemma StronglySorted_map {A B} (f : A -> B) (R : relation B) (l : list A) :
  StronglySorted R (map f l) -> StronglySorted (fun a b => R (f a) (f b)) l.
Proof.
  induction l as [|x l IH]; simpl; intros Hs; [constructor|].
  apply StronglySorted_cons in Hs as [Hx Hs].
  apply StronglySorted_cons. split; [|by apply IH].
  apply Forall_forall. intros y Hy.
  rewrite Forall_forall in Hx. apply Hx.
  apply list_elem_of_In, in_map, list_elem_of_In, Hy.
Qed.

Lemma StronglySorted_take {A} (R : relation A) (n : nat) (l : list A) :
  StronglySorted R l -> StronglySorted R (take n l).
Proof.
  intros Hs. rewrite <- (take_drop n l) in Hs.
  by apply StronglySorted_app_1_l in Hs.
Qed.

Lemma strictly_sorted_NoDup (f : string -> nat) (l : list string) :
  StronglySorted (fun a b => (f a < f b)%nat) l -> NoDup l.
Proof.
  induction l as [|x l IH]; intros Hs; [constructor|].
  apply StronglySorted_cons in Hs as [Hx Hs].
  constructor; [|by apply IH].
  intros Hin. rewrite Forall_forall in Hx. specialize (Hx x Hin). lia.
Qed.

Lemma elem_count_of c t n :
  NoDup (map fst c) ->
  (t, n) ∈ c <-> t ∈ map fst c /\ count_of c t = n.
Proof.
  induction c as [|[k m] c IH]; simpl; intros Hnd.
  - split; [by intros H%elem_of_nil|]. by intros [H%elem_of_nil _].
  - apply NoDup_cons in Hnd as [Hk Hnd]. rewrite !elem_of_cons, (IH Hnd).
    destruct (decide (k = t)) as [->|Hne]; naive_solver.
Qed.

Lemma ranking_elem types t n :
  (t, n) ∈ ranking types <-> n = occurrences t types /\ (0 < n)%nat.
Proof.
  unfold ranking. rewrite sorted_by_count_Permutation.
  destruct (of_list_counts types) as (Hcount & Hkeys & Hsorted).
  rewrite elem_count_of
    by exact (strictly_sorted_NoDup (fun a => first_index a types) _ Hsorted).
  rewrite Hkeys, Hcount, <- occurrences_pos. split.
  - intros [Hpos <-]. done.
  - intros [-> Hpos]. done.
Qed.

Lemma ranking_sorted types :
  StronglySorted (fun a b => ranked_before types (fst a) (fst b)) (ranking types).
Proof.
  destruct (of_list_counts types) as (Hcount & Hkeys & Hsorted).
  apply StronglySorted_map in Hsorted.
  apply sorted_by_count_sorted in Hsorted. fold (ranking types) in Hsorted.
  eapply StronglySorted_impl_elem; [|exact Hsorted].
  intros [a na] [b nb] Ha Hb. apply ranking_elem in Ha as [-> _].
  apply ranking_elem in Hb as [-> _]. unfold stable_order, ranked_before. simpl.
  done.
Qed.

Lemma calculate_metrics_top_5 errors total m :
  Metrics.calculate_metrics errors total = Py.ret m ->
  Metrics.top_5_issues m = take 5 (ranking (map issue_type errors)).
Proof.
  unfold Metrics.calculate_metrics. intros H.
  destruct (if 0 <? total then _ else _) as [e|score]; simpl in H; [done|].
  destruct (Num.round2 score) as [e|rounded]; simpl in H; [done|].
  by injection H as <-.
Qed.

(** C5: [top_5_issues] holds the first five entries of the list of
    [(issue_type, count)] pairs, one per issue type that occurs, ordered by
    non-increasing count with ties in the order in which the issue types are
    first met in the error list. *)
Theorem top_5_issues_ranked (validation_errors : list error) (total : Z)
    (m : Metrics.metrics) :
  Metrics.calculate_metrics validation_errors total = Py.ret m ->
  let types := map issue_type validation_errors in
  exists ranked : list (string * nat),
    Metrics.top_5_issues m = take 5 ranked /\
    (forall t n, (t, n) ∈ ranked <-> n = occurrences t types /\ (0 < n)%nat) /\
    StronglySorted (fun a b => ranked_before types (fst a) (fst b)) ranked /\
    (length (Metrics.top_5_issues m) <= 5)%nat /\
    StronglySorted (fun a b => (snd b <= snd a)%nat) (Metrics.top_5_issues m).
Proof.
  intros Hm types. exists (ranking types).
  pose proof (calculate_metrics_top_5 _ _ _ Hm) as Htop. fold types in Htop.
  split; [done|]. split; [apply ranking_elem|]. split; [apply ranking_sorted|].
  rewrite Htop. split.
  - rewrite length_take. lia.
  - apply StronglySorted_take.
    eapply StronglySorted_impl_elem; [|apply ranking_sorted].
    intros [a na] [b nb] Ha Hb. apply ranking_elem in Ha as [-> _].
    apply ranking_elem in Hb as [-> _]. unfold ranked_before. simpl. lia.
Qed.

Lemma top_5_issues_ranked_witness :
  let errors := [mkError (Py.KStr "SKU-00001") "price_too_low" [];
                 mkError (Py.KStr "SKU-00002") "duplicate_sku" [];
                 mkError (Py.KStr "SKU-00003") "low_stock_warning" [];
                 mkError (Py.KStr "SKU-00004") "duplicate_sku" [];
                 mkError (Py.KStr "SKU-00004") "low_stock_warning" []] in
  let types := map issue_type errors in
  let m := Metrics.mkMetrics 4 0 4 (Py.NFloat (S754_zero false)) 5
             [("duplicate_sku", 2%nat); ("low_stock_warning", 2%nat);
              ("price_too_low", 1%nat)] in
  Metrics.calculate_metrics errors 4 = Py.ret m /\
  exists ranked : list (string * nat),
    Metrics.top_5_issues m = take 5 ranked /\
    (forall t n, (t, n) ∈ ranked <-> n = occurrences t types /\ (0 < n)%nat) /\
    StronglySorted (fun a b => ranked_before types (fst a) (fst b)) ranked /\
    (length (Metrics.top_5_issues m) <= 5)%nat /\
    StronglySorted (fun a b => (snd b <= snd a)%nat) (Metrics.top_5_issues m).
Proof.
  split; [reflexivity | apply (top_5_issues_ranked _ 4); reflexivity].
Defined.

End Ranking.

(** ** Facts about the rule-based summary *)

Section SummaryFacts.

Import Py Num Metrics Summary.

























(** Outside the dicts [calculate_metrics] returns the function can raise: an
    [int] score beyond the float range cannot be rendered by
    [f"{score:.1f}"]. *)
Example summary_raises_on_unformattable_score :
  generate_executive_summary (mkMetrics 1 1 0 (NInt (10 ^ 400)) 0 [])
  = raise OverflowError.
Proof. by vm_compute. Qed.

Example summary_of_moderate_catalog :
  let m := mkMetrics 30 27 3
             (NFloat (Float.of_decimal false 90 0)) 4
             [("duplicate_sku", 2%nat); ("price_too_low", 1%nat);
              ("low_stock_warning", 1%nat)] in
  exists paragraph,
    generate_executive_summary m = ret paragraph /\
    has_phrase "moderate data quality concerns" paragraph = true /\
    has_phrase "excellent" paragraph = true /\
    has_phrase "demonstrates" paragraph = true /\
    has_phrase "Duplicate Sku" paragraph = true.
Proof. eexists. split; [vm_compute; reflexivity|]. vm_compute. repeat split. Qed.

End SummaryFacts.

(** ** Further facts about the validators *)

Section ValidatorFacts.

(** A loop that appends errors satisfying [P] only returns such errors. *)
Lemma for_each_Forall (P : error -> Prop)
    (body : list error -> record -> Py.result (list error)) (df : dataframe) :
  (forall errs row errs',
     body errs row = Py.ret errs' ->
     exists new, errs' = errs ++ new /\ Forall P new) ->
  forall errs out,
    Forall P errs -> for_each body df errs = Py.ret out -> Forall P out.
Proof.
  intros Hbody. induction df as [|row df IH]; intros errs out Herrs Hout; simpl in *.
  - by injection Hout as <-.
  - destruct (body errs row) as [ex|errs'] eqn:Hb; simpl in Hout; [done|].
    destruct (Hbody _ _ _ Hb) as (new & -> & Hnew).
    eapply IH; [|exact Hout]. by apply Forall_app.
Qed.

(** A returning iteration of the price loop appends at most one error, of
    one of the three price issue types. *)
Lemma price_body_appends self errs row errs' :
  PriceValidator.body self errs row = Py.ret errs' ->
  exists new, errs' = errs ++ new /\ (length new <= 1)%nat /\
              Forall (fun e => issue_type e ∈ price_issue_types) new.
Proof.
  unfold PriceValidator.body, append, price_issue_types.
  destruct (Builtins.float (row_price row)) as [[]|v]; try discriminate.
  - intros [= <-]. eexists. split; [done|]. split; [simpl; lia|].
    repeat constructor.
  - intros [= <-]. eexists. split; [done|]. split; [simpl; lia|].
    repeat constructor.
  - destruct (Float.leb v _).
    + intros [= <-]. eexists. split; [done|]. split; [simpl; lia|].
      constructor; [|constructor]. simpl. set_solver.
    + destruct (Float.geb v _); intros [= <-].
      * eexists. split; [done|]. split; [simpl; lia|].
        constructor; [|constructor]. simpl. set_solver.
      * exists []. split; [by rewrite app_nil_r|]. split; [simpl; lia|constructor].
Qed.

Lemma inventory_body_appends self errs row errs' :
  InventoryValidator.body self errs row = Py.ret errs' ->
  exists new, errs' = errs ++ new /\ (length new <= 1)%nat /\
              Forall (fun e => issue_type e ∈ inventory_issue_types) new.
Proof.
  unfold InventoryValidator.body, append, inventory_issue_types.
  destruct (Builtins.int (row_inventory_count row)) as [[]|v]; try discriminate.
  - intros [= <-]. eexists. split; [done|]. split; [simpl; lia|].
    repeat constructor.
  - intros [= <-]. eexists. split; [done|]. split; [simpl; lia|].
    repeat constructor.
  - destruct (v <? _).
    + intros [= <-]. eexists. split; [done|]. split; [simpl; lia|].
      constructor; [|constructor]. simpl. set_solver.
    + destruct (v <? _); intros [= <-].
      * eexists. split; [done|]. split; [simpl; lia|].
        constructor; [|constructor]. simpl. set_solver.
      * exists []. split; [by rewrite app_nil_r|]. split; [simpl; lia|constructor].
Qed.

Lemma sku_scan_types self c df : forall seen,
  Forall (fun e => issue_type e ∈ sku_issue_types) (scan self c seen df).
Proof.
  unfold sku_issue_types.
  induction df as [|r df IH]; intros seen; [constructor|].
  cbn [scan]. rewrite !Forall_app. split_and!; [| |apply IH].
  - unfold format_part. destruct (negb _); [|constructor].
    constructor; [|constructor]. simpl. set_solver.
  - unfold duplicate_part. destruct (_ && _); [|constructor].
    constructor; [|constructor]. simpl. set_solver.
Qed.

Lemma sku_scan_length self c df : forall seen,
  (length (scan self c seen df) <= 2 * length df)%nat.
Proof.
  induction df as [|r df IH]; intros seen; [done|].
  cbn [scan]. rewrite !length_app. specialize (IH (seen ++ [row_sku r])).
  unfold format_part, duplicate_part.
  destruct (negb _); destruct (_ && _); simpl in *; lia.
Qed.

Lemma for_each_length (body : list error -> record -> Py.result (list error))
    (df : dataframe) :
  (forall errs row errs',
     body errs row = Py.ret errs' ->
     exists new, errs' = errs ++ new /\ (length new <= 1)%nat) ->
  forall errs out,
    for_each body df errs = Py.ret out ->
    (length out <= length errs + length df)%nat.
Proof.
  intros Hbody. induction df as [|row df IH]; intros errs out Hout; simpl in *.
  - injection Hout as <-. lia.
  - destruct (body errs row) as [ex|errs'] eqn:Hb; simpl in Hout; [done|].
    destruct (Hbody _ _ _ Hb) as (new & -> & Hnew).
    apply IH in Hout. rewrite length_app in Hout. lia.
Qed.

Lemma price_validate_types self df errors :
  PriceValidator.validate self df = Py.ret errors ->
  Forall (fun e => issue_type e ∈ price_issue_types) errors.
Proof.
  intros Hp. eapply for_each_Forall; [|constructor|exact Hp].
  intros errs row errs' Hb.
  destruct (price_body_appends _ _ _ _ Hb) as (new & ? & _ & ?); eauto.
Qed.

Lemma inventory_validate_types self df errors :
  InventoryValidator.validate self df = Py.ret errors ->
  Forall (fun e => issue_type e ∈ inventory_issue_types) errors.
Proof.
  intros Hi. eapply for_each_Forall; [|constructor|exact Hi].
  intros errs row errs' Hb.
  destruct (inventory_body_appends _ _ _ _ Hb) as (new & ? & _ & ?); eauto.
Qed.

Lemma sku_validate_types self df :
  Forall (fun e => issue_type e ∈ sku_issue_types) (SKUValidator.validate self df).
Proof. rewrite validate_scan. apply sku_scan_types. Qed.

(** X1: every error a validator returns carries one of the issue types of
    that validator, whatever its configuration: three for prices, two for
    skus, three for inventory counts. *)
Theorem validators_issue_types_closed
    (pv : PriceValidator.t) (sv : SKUValidator.t) (iv : InventoryValidator.t)
    (df : dataframe) (price_errors inventory_errors : list error) :
  PriceValidator.validate pv df = Py.ret price_errors ->
  InventoryValidator.validate iv df = Py.ret inventory_errors ->
  Forall (fun e => issue_type e ∈ price_issue_types) price_errors /\
  Forall (fun e => issue_type e ∈ sku_issue_types) (SKUValidator.validate sv df) /\
  Forall (fun e => issue_type e ∈ inventory_issue_types) inventory_errors.
Proof.
  intros Hp Hi. split_and!.
  - by eapply price_validate_types.
  - apply sku_validate_types.
  - by eapply inventory_validate_types.
Qed.

Lemma validators_issue_types_closed_witness :
  let df := [row "SKU-00001" (Py.VInt 0) (Py.VStr "abc");
             row "SKU-00001" (Py.VStr "12.5") (Py.VInt 3)] in
  exists price_errors inventory_errors,
    Forall (fun e => issue_type e ∈ price_issue_types) price_errors /\
    Forall (fun e => issue_type e ∈ sku_issue_types)
      (SKUValidator.validate (SKUValidator.init None) df) /\
    Forall (fun e => issue_type e ∈ inventory_issue_types) inventory_errors.
Proof.
  intros df. eexists _, _.
  apply (validators_issue_types_closed
           (PriceValidator.init None None) (SKUValidator.init None)
           (InventoryValidator.init None None) df); reflexivity.
Defined.

(** X2: a price or inventory validator returns at most one error per row, the
    sku validator at most two, so the merged list of the pipeline has at most
    four errors per row. *)
Theorem validators_error_count_bounds
    (pv : PriceValidator.t) (sv : SKUValidator.t) (iv : InventoryValidator.t)
    (df : dataframe) (price_errors inventory_errors : list error) :
  PriceValidator.validate pv df = Py.ret price_errors ->
  InventoryValidator.validate iv df = Py.ret inventory_errors ->
  (length price_errors <= length df)%nat /\
  (length (SKUValidator.validate sv df) <= 2 * length df)%nat /\
  (length inventory_errors <= length df)%nat /\
  (length (price_errors ++ SKUValidator.validate sv df ++ inventory_errors)
   <= 4 * length df)%nat.
Proof.
  intros Hp Hi.
  assert (length price_errors <= length df)%nat as H1.
  { eapply (for_each_length _ df) in Hp; [simpl in Hp; lia|].
    intros errs row errs' Hb.
    destruct (price_body_appends _ _ _ _ Hb) as (new & ? & ? & _); eauto. }
  assert (length inventory_errors <= length df)%nat as H3.
  { eapply (for_each_length _ df) in Hi; [simpl in Hi; lia|].
    intros errs row errs' Hb.
    destruct (inventory_body_appends _ _ _ _ Hb) as (new & ? & ? & _); eauto. }
  pose proof (sku_scan_length sv (KeyCounter.of_list (map row_sku df)) df []) as H2.
  rewrite <- validate_scan in H2.
  rewrite !length_app. lia.
Qed.

Lemma validators_error_count_bounds_witness :
  let df := [row "SKU-00001" (Py.VInt 0) (Py.VStr "abc");
             row "SKU-00001" (Py.VStr "12.5") (Py.VInt 3)] in
  exists price_errors inventory_errors,
    (length price_errors <= length df)%nat /\
    (length (SKUValidator.validate (SKUValidator.init None) df) <= 2 * length df)%nat /\
    (length inventory_errors <= length df)%nat /\
    (length (price_errors ++ SKUValidator.validate (SKUValidator.init None) df
             ++ inventory_errors) <= 4 * length df)%nat.
Proof.
  intros df. eexists _, _.
  apply (validators_error_count_bounds
           (PriceValidator.init None None) (SKUValidator.init None)
           (InventoryValidator.init None None) df); reflexivity.
Defined.

(** What an iteration does never depends on the errors collected so far. *)
Lemma price_body_accumulates self errs row :
  PriceValidator.body self errs row =
  Py.bind (PriceValidator.body self [] row) (fun new => Py.ret (errs ++ new)).
Proof.
  unfold PriceValidator.body, append.
  destruct (Builtins.float (row_price row)) as [[]|v]; simpl; try done.
  destruct (Float.leb v _); [done|].
  destruct (Float.geb v _); simpl; by rewrite ?app_nil_r.
Qed.

Lemma inventory_body_accumulates self errs row :
  InventoryValidator.body self errs row =
  Py.bind (InventoryValidator.body self [] row) (fun new => Py.ret (errs ++ new)).
Proof.
  unfold InventoryValidator.body, append.
  destruct (Builtins.int (row_inventory_count row)) as [[]|v]; simpl; try done.
  destruct (v <? _); [done|].
  destruct (v <? _); simpl; by rewrite ?app_nil_r.
Qed.

Lemma for_each_accumulates
    (body : list error -> record -> Py.result (list error)) (df : dataframe) :
  (forall errs row,
     body errs row = Py.bind (body [] row) (fun new => Py.ret (errs ++ new))) ->
  forall errs,
    for_each body df errs =
    Py.bind (for_each body df []) (fun new => Py.ret (errs ++ new)).
Proof.
  intros Hbody. induction df as [|row df IH]; intros errs; simpl.
  - by rewrite app_nil_r.
  - rewrite (Hbody errs row).
    destruct (body [] row) as [e|new]; simpl; [done|].
    rewrite (IH (errs ++ new)), (IH new).
    destruct (for_each body df []) as [e|out]; simpl; [done|].
    by rewrite app_assoc.
Qed.

(** X3: the price and inventory validators work row by row: validating two
    record sets one after the other and concatenating the errors gives what
    validating their concatenation gives, an exception of the first part
    hiding the second. *)
Theorem price_and_inventory_validate_concat
    (pv : PriceValidator.t) (iv : InventoryValidator.t) (df1 df2 : dataframe) :
  PriceValidator.validate pv (df1 ++ df2) =
    Py.bind (PriceValidator.validate pv df1) (fun errors1 =>
    Py.bind (PriceValidator.validate pv df2) (fun errors2 =>
    Py.ret (errors1 ++ errors2))) /\
  InventoryValidator.validate iv (df1 ++ df2) =
    Py.bind (InventoryValidator.validate iv df1) (fun errors1 =>
    Py.bind (InventoryValidator.validate iv df2) (fun errors2 =>
    Py.ret (errors1 ++ errors2))).
Proof.
  split.
  - unfold PriceValidator.validate. rewrite for_each_app.
    destruct (for_each _ df1 []) as [e|errors1]; simpl; [done|].
    apply for_each_accumulates, price_body_accumulates.
  - unfold InventoryValidator.validate. rewrite for_each_app.
    destruct (for_each _ df1 []) as [e|errors1]; simpl; [done|].
    apply for_each_accumulates, inventory_body_accumulates.
Qed.

(** X4: an infinite price never passes thresholds that are finite: minus
    infinity is reported as too low and plus infinity as too high. *)
Theorem infinite_price_is_out_of_range
    (self : PriceValidator.t) (errors : list error) (row : record) (s : bool) :
  finite_threshold (PriceValidator.min_price self) = true ->
  finite_threshold (PriceValidator.max_price self) = true ->
  Builtins.float (row_price row) = Py.ret (Float.infinity s) ->
  PriceValidator.body self errors row =
  Py.ret (errors ++
          [if s then PriceValidator.too_low_error self row (Float.infinity true)
           else PriceValidator.too_high_error self row (Float.infinity false)]).
Proof.
  intros Hmin Hmax Hprice. unfold PriceValidator.body, append. rewrite Hprice.
  destruct (PriceValidator.min_price self) as [?| |?|? ? ?]; try discriminate;
    destruct (PriceValidator.max_price self) as [?| |?|? ? ?]; try discriminate;
    by destruct s.
Qed.

Lemma infinite_price_is_out_of_range_witness :
  PriceValidator.validate (PriceValidator.init None None)
    [row "SKU-00001" (Py.VStr "-inf") (Py.VInt 10)] =
  Py.ret [PriceValidator.too_low_error (PriceValidator.init None None)
            (row "SKU-00001" (Py.VStr "-inf") (Py.VInt 10)) (Float.infinity true)] /\
  PriceValidator.validate (PriceValidator.init None None)
    [row "SKU-00002" (Py.VStr "1e999") (Py.VInt 10)] =
  Py.ret [PriceValidator.too_high_error (PriceValidator.init None None)
            (row "SKU-00002" (Py.VStr "1e999") (Py.VInt 10)) (Float.infinity false)].
Proof.
  split.
  - unfold PriceValidator.validate, for_each.
    rewrite (infinite_price_is_out_of_range _ [] _ true); reflexivity.
  - unfold PriceValidator.validate, for_each.
    rewrite (infinite_price_is_out_of_range _ [] _ false); reflexivity.
Defined.

(** X5: a float inventory count strictly between -1 and 1 is truncated to 0
    before it is compared: the row is treated as one holding 0, so with the
    default thresholds -0.5 gives a low stock warning and no
    [negative_inventory] error. *)
Theorem fractional_inventory_counts_as_zero
    (self : InventoryValidator.t) (errors : list error) (row : record)
    (s : bool) (m k : positive) :
  row_inventory_count row = Py.VFloat (S754_finite s m (Zneg k)) ->
  Zpos m < 2 ^ Zpos k ->
  InventoryValidator.body self errors row =
  if 0 <? InventoryValidator.min_inventory self
  then Py.ret (errors ++ [InventoryValidator.negative_error row 0])
  else if 0 <? InventoryValidator.low_stock_threshold self
  then Py.ret (errors ++ [InventoryValidator.low_stock_error self row 0])
  else Py.ret errors.
Proof.
  intros Hcell Hlt. unfold InventoryValidator.body, append. rewrite Hcell.
  cbn [Builtins.int Float.trunc].
  assert (Z.shiftr (Z.pos m) (Z.pos k) = 0) as ->.
  { rewrite Z.shiftr_div_pow2 by lia. apply Z.div_small. lia. }
  by destruct s.
Qed.

Lemma fractional_inventory_counts_as_zero_witness :
  let minus_half := S754_finite true 4503599627370496 (-53) in
  let r := row "SKU-00001" (Py.VInt 10) (Py.VFloat minus_half) in
  InventoryValidator.validate (InventoryValidator.init None None) [r] =
  Py.ret [InventoryValidator.low_stock_error
            (InventoryValidator.init None None) r 0].
Proof.
  intros minus_half r. unfold InventoryValidator.validate, for_each.
  rewrite (fractional_inventory_counts_as_zero _ [] r true 4503599627370496 53);
    reflexivity.
Defined.


Lemma low_inventory_warnings_length errors :
  AiInputs.low_inventory_warnings errors =
  Z.of_nat (length (low_stock_warnings errors)).
Proof.
  unfold AiInputs.low_inventory_warnings, low_stock_warnings.
  induction errors as [|e errors IH] using rev_ind; [done|].
  rewrite foldl_snoc, filter_app, length_app, IH, (filter_cons _ e), filter_nil.
  destruct (String.eqb_spec (issue_type e) "low_stock_warning");
    case_decide; try done; simpl; lia.
Qed.

Lemma low_stock_warnings_none (types : list string) errors :
  "low_stock_warning" ∉ types ->
  Forall (fun e => issue_type e ∈ types) errors ->
  low_stock_warnings errors = [].
Proof.
  intros Hnot. unfold low_stock_warnings.
  induction 1 as [|e errors He _ IH]; [done|].
  rewrite (filter_cons _ e), IH. case_decide as Heq; [|done].
  rewrite Heq in He. done.
Qed.

Lemma low_stock_warnings_rows df :
  length (low_stock_warnings
            (flat_map (inventory_row_errors (InventoryValidator.init None None)) df)) =
  length (filter (fun r => is_low_stock r = true) df).
Proof.
  unfold low_stock_warnings.
  induction df as [|r df IH]; [done|].
  cbn [flat_map]. rewrite filter_app, length_app, IH, (filter_cons _ r).
  unfold inventory_row_errors, is_low_stock.
  destruct (Builtins.int (row_inventory_count r)) as [ex|v]; [done|].
  cbn [InventoryValidator.init InventoryValidator.min_inventory
       InventoryValidator.low_stock_threshold].
  unfold InventoryValidator.MIN_INVENTORY, InventoryValidator.LOW_STOCK_THRESHOLD.
  destruct (Z.ltb_spec v 0), (Z.ltb_spec v 5), (Z.leb_spec 0 v);
    try lia; done.
Qed.

(** X7: the low inventory figure main.py hands to the AI summary is the
    number of rows whose inventory count is an integer from 0 to 4. *)
Theorem low_inventory_warnings_counts_low_stock_rows
    (df : dataframe) (errors : list error) :
  Main.all_errors df = Py.ret errors ->
  AiInputs.low_inventory_warnings errors =
  Z.of_nat (length (filter (fun r => is_low_stock r = true) df)).
Proof.
  unfold Main.all_errors, BaseValidator.validate,
    price_validator, sku_validator, inventory_validator.
  destruct (PriceValidator.validate _ df) as [ex|pe] eqn:Hp; simpl; [done|].
  destruct (InventoryValidator.validate _ df) as [ex|ie] eqn:Hi; simpl; [done|].
  intros [= <-]. rewrite low_inventory_warnings_length.
  unfold low_stock_warnings. rewrite !filter_app, !length_app.
  fold (low_stock_warnings pe).
  fold (low_stock_warnings (SKUValidator.validate (SKUValidator.init None) df)).
  fold (low_stock_warnings ie).
  rewrite (low_stock_warnings_none price_issue_types pe);
    [|unfold price_issue_types; set_solver|by eapply price_validate_types].
  rewrite (low_stock_warnings_none sku_issue_types);
    [|unfold sku_issue_types; set_solver|apply sku_validate_types].
  destruct (forallb (fun r => negb (int_overflows (row_inventory_count r))) df) eqn:Hall.
  - rewrite (inventory_validate_no_overflow _ df Hall) in Hi.
    injection Hi as <-. by rewrite low_stock_warnings_rows.
  - apply (inventory_validate_raises (InventoryValidator.init None None)) in Hall.
    rewrite Hall in Hi. done.
Qed.

Lemma low_inventory_warnings_counts_low_stock_rows_witness :
  let df := [row "SKU-00001" (Py.VInt 10) (Py.VInt 3);
             row "SKU-00002" (Py.VInt 10) (Py.VStr "x");
             row "SKU-00003" (Py.VInt 10) (Py.VStr " 4 ")] in
  exists errors,
    Main.all_errors df = Py.ret errors /\
    AiInputs.low_inventory_warnings errors = 2.
Proof.
  intros df. eexists. split; [reflexivity|].
  apply (low_inventory_warnings_counts_low_stock_rows df). reflexivity.
Defined.

Lemma sku_errors_split errs :
  Forall (fun e => issue_type e ∈ sku_issue_types) errs ->
  length errs = (length (format_errors errs) + length (duplicate_errors errs))%nat.
Proof.
  unfold format_errors, duplicate_errors, sku_issue_types.
  induction 1 as [|e errs He _ IH]; [done|].
  rewrite !(filter_cons _ e). simpl. rewrite IH.
  repeat case_decide; simpl; try lia.
  - congruence.
  - set_solver.
Qed.

Lemma duplicates_of_count k errs :
  length (filter (fun x => x = k) (map sku (duplicate_errors errs))) =
  length (duplicates_of k errs).
Proof.
  unfold duplicate_errors, duplicates_of.
  induction errs as [|e errs IH]; [done|].
  rewrite !(filter_cons _ e).
  destruct (decide (issue_type e = "duplicate_sku")) as [Ht|Ht].
  - cbn [map]. rewrite (filter_cons _ (sku e)).
    destruct (decide (sku e = k)) as [Hk|Hk].
    + rewrite decide_True by done. simpl. by rewrite IH.
    + rewrite decide_False by tauto. done.
  - rewrite decide_False by tauto. done.
Qed.

Lemma NoDup_of_counts {A} `{EqDecision A} (l : list A) :
  (forall k, (length (filter (fun x => x = k) l) <= 1)%nat) -> NoDup l.
Proof.
  induction l as [|x l IH]; intros Hcount; [constructor|].
  constructor.
  - intros Hin. specialize (Hcount x). rewrite (filter_cons _ x) in Hcount.
    rewrite decide_True in Hcount by done. simpl in Hcount.
    assert (x ∈ filter (fun y => y = x) l) as Hx by (apply list_elem_of_filter; auto).
    destruct (filter (fun y => y = x) l); [by apply elem_of_nil in Hx|].
    simpl in Hcount. lia.
  - apply IH. intros k. specialize (Hcount k).
    rewrite (filter_cons _ x) in Hcount. case_decide; simpl in Hcount; lia.
Qed.

Lemma elem_of_count {A} `{EqDecision A} (k : A) (l : list A) :
  k ∈ l <-> (0 < length (filter (fun x => x = k) l))%nat.
Proof.
  split.
  - intros Hin.
    assert (k ∈ filter (fun y => y = k) l) as Hk by (apply list_elem_of_filter; auto).
    destruct (filter (fun y => y = k) l); [by apply elem_of_nil in Hk|simpl; lia].
  - intros Hpos. destruct (filter (fun y => y = k) l) as [|y l'] eqn:Hf;
      [simpl in Hpos; lia|].
    assert (y ∈ filter (fun y => y = k) l) as Hy by (rewrite Hf; apply elem_of_cons; auto).
    apply list_elem_of_filter in Hy as [-> ?]. done.
Qed.

Lemma duplicate_errors_count self df :
  length (duplicate_errors (SKUValidator.validate self df)) = size (repeated_skus df).
Proof.
  set (D := map sku (duplicate_errors (SKUValidator.validate self df))).
  assert (forall k, length (filter (fun x => x = k) D) =
                    if bool_decide (1 < freq k df)%nat then 1%nat else 0%nat) as Hcount.
  { intros k. unfold D. rewrite duplicates_of_count, validate_scan,
      duplicates_of_scan, get_of_list.
    rewrite (bool_decide_ext _ (1 < freq k df)%nat); [done|]. split; [tauto|].
    intros H. split; [done|]. split; [apply not_elem_of_nil|].
    apply freq_pos_elem. lia. }
  assert (NoDup D) as Hnodup.
  { apply NoDup_of_counts. intros k. rewrite Hcount. case_bool_decide; lia. }
  assert (list_to_set D = repeated_skus df) as Hset.
  { apply set_eq. intros k. unfold repeated_skus.
    rewrite elem_of_list_to_set, elem_of_filter, elem_of_list_to_set,
      elem_of_count, Hcount.
    case_bool_decide as Hk; split; try lia; try tauto.
    intros _. split; [done|]. apply freq_pos_elem. lia. }
  rewrite <- Hset, size_list_to_set by done.
  unfold D. by rewrite length_map.
Qed.

(** X8: the sku validator returns one error for each row with a malformed sku
    and one more for each sku that more than one row holds. *)
Theorem sku_error_count (self : SKUValidator.t) (df : dataframe) :
  length (SKUValidator.validate self df) =
  (length (malformed_rows self df) + size (repeated_skus df))%nat.
Proof.
  rewrite (sku_errors_split _ (sku_validate_types self df)).
  rewrite duplicate_errors_count. f_equal.
  rewrite validate_scan, format_errors_scan, length_map. done.
Qed.

End ValidatorFacts.

(** ** Further facts about the metrics and the summary *)

Section AggregationFacts.

Import Py Num Metrics.

(** The fields of a returned dict. *)
Lemma calculate_metrics_inv errors total m :
  calculate_metrics errors total = ret m ->
  total_records m = total /\
  invalid_records m = Z.of_nat (size (sku_set errors)) /\
  valid_records m = total - Z.of_nat (size (sku_set errors)) /\
  total_errors m = len errors /\
  top_5_issues m = take 5 (ranking (map issue_type errors)).
Proof.
  intros Hm. pose proof (calculate_metrics_top_5 _ _ _ Hm) as Htop.
  revert Hm. unfold calculate_metrics.
  destruct (if 0 <? total then _ else _) as [e|score]; simpl; [done|].
  destruct (round2 score) as [e|rounded]; simpl; [done|].
  intros [= <-]. done.
Qed.

Lemma ranking_nil types : ranking types = [] <-> types = [].
Proof.
  split; [|by intros ->].
  destruct types as [|t types]; [done|]. intros Hnil.
  assert ((t, occurrences t (t :: types)) ∈ ranking (t :: types)) as Hin.
  { apply ranking_elem. split; [done|]. unfold occurrences.
    rewrite (filter_cons _ t), decide_True by done. simpl. lia. }
  rewrite Hnil in Hin. by apply elem_of_nil in Hin.
Qed.

(** X9: the dict [calculate_metrics] returns shows no invalid record, no
    error and no issue exactly when the error list is empty. *)
Theorem metrics_clean_iff_no_errors
    (errors : list error) (total : Z) (m : metrics) :
  calculate_metrics errors total = ret m ->
  (invalid_records m = 0 <-> errors = []) /\
  (total_errors m = 0 <-> errors = []) /\
  (top_5_issues m = [] <-> errors = []).
Proof.
  intros Hm.
  destruct (calculate_metrics_inv _ _ _ Hm) as (_ & -> & _ & -> & ->).
  split_and!.
  - rewrite sku_set_list. split.
    + intros Hsize. assert (size (list_to_set (C := gset key) (map sku errors)) = 0%nat)
        as Hz by lia.
      apply size_empty_inv in Hz. destruct errors as [|e errors]; [done|].
      exfalso. cbn [map list_to_set] in Hz. set_solver.
    + by intros ->.
  - unfold len. split; [|by intros ->]. destruct errors; [done|simpl; lia].
  - split; [|by intros ->]. intros Htake.
    destruct (ranking (map issue_type errors)) as [|x l] eqn:Hr; [|done].
    apply ranking_nil in Hr. by destruct errors.
Qed.

Lemma metrics_clean_iff_no_errors_witness :
  exists m,
    calculate_metrics [] 7 = ret m /\
    (invalid_records m = 0 <-> @nil error = []) /\
    (total_errors m = 0 <-> @nil error = []) /\
    (top_5_issues m = [] <-> @nil error = []).
Proof.
  eexists. split; [reflexivity|].
  apply (metrics_clean_iff_no_errors [] 7). reflexivity.
Defined.

Lemma sum_counts_add c t : sum_counts (IssueCounter.add c t) = S (sum_counts c).
Proof.
  induction c as [|[k n] c IH]; [done|]. simpl.
  destruct (decide (k = t)); simpl; [lia|]. rewrite IH. lia.
Qed.

Lemma sum_counts_of_list p : sum_counts (IssueCounter.of_list p) = length p.
Proof.
  unfold IssueCounter.of_list.
  induction p as [|x p IH] using rev_ind; [done|].
  rewrite foldl_snoc, sum_counts_add, IH, length_app. simpl. lia.
Qed.

Lemma sum_counts_Permutation l1 l2 : l1 ≡ₚ l2 -> sum_counts l1 = sum_counts l2.
Proof. induction 1; simpl in *; lia. Qed.

Lemma sum_counts_take n l : (sum_counts (take n l) <= sum_counts l)%nat.
Proof.
  revert n. induction l as [|x l IH]; intros [|n]; simpl; try lia.
  specialize (IH n). lia.
Qed.

Lemma sum_counts_ranking types : sum_counts (ranking types) = length types.
Proof.
  unfold ranking.
  rewrite (sum_counts_Permutation _ _ (sorted_by_count_Permutation _)).
  apply sum_counts_of_list.
Qed.

Lemma ranking_length types (distinct : list string) :
  NoDup distinct -> (forall t, t ∈ distinct <-> t ∈ types) ->
  length (ranking types) = length distinct.
Proof.
  intros Hnd Hdistinct. unfold ranking.
  rewrite (Permutation_length (sorted_by_count_Permutation _)).
  destruct (of_list_counts types) as (_ & Hkeys & Hsorted).
  rewrite <- (length_map fst). apply Permutation_length, NoDup_Permutation.
  - exact (strictly_sorted_NoDup (fun a => first_index a types) _ Hsorted).
  - done.
  - intros t. by rewrite Hkeys, Hdistinct.
Qed.

(** X10: the counts of [top_5_issues] are positive and add up to at most
    [total_errors]; they add up to [total_errors] exactly when the errors
    have at most five distinct issue types. *)
Theorem top_5_counts_sum
    (errors : list error) (total : Z) (m : metrics) (distinct : list string) :
  calculate_metrics errors total = ret m ->
  NoDup distinct -> (forall t, t ∈ distinct <-> t ∈ map issue_type errors) ->
  Forall (fun issue => (0 < snd issue)%nat) (top_5_issues m) /\
  Z.of_nat (sum_counts (top_5_issues m)) <= total_errors m /\
  (Z.of_nat (sum_counts (top_5_issues m)) = total_errors m <->
   (length distinct <= 5)%nat).
Proof.
  intros Hm Hnd Hdistinct.
  destruct (calculate_metrics_inv _ _ _ Hm) as (_ & _ & _ & -> & ->).
  set (types := map issue_type errors) in *.
  pose proof (sum_counts_ranking types) as Hsum.
  pose proof (ranking_length types distinct Hnd Hdistinct) as Hlen.
  assert (Forall (fun issue : string * nat => (0 < snd issue)%nat) (ranking types))
    as Hpos.
  { apply Forall_forall. intros [t n] Hin. apply ranking_elem in Hin. simpl. lia. }
  unfold len. replace (length errors) with (length types)
    by (unfold types; apply length_map).
  split; [by apply Forall_take|].
  split; [pose proof (sum_counts_take 5 (ranking types)); lia|].
  split.
  - intros Heq. rewrite <- Hlen.
    destruct (decide (length (ranking types) <= 5)%nat) as [|Hgt]; [done|].
    exfalso.
    rewrite <- (take_drop 5 (ranking types)) in Hsum, Hpos.
    apply Forall_app in Hpos as [_ Hpos].
    assert (sum_counts (take 5 (ranking types) ++ drop 5 (ranking types)) =
            (sum_counts (take 5 (ranking types))
             + sum_counts (drop 5 (ranking types)))%nat) as Happ.
    { generalize (take 5 (ranking types)). intros l.
      induction l as [|x l IH]; simpl; [done|]. rewrite IH. lia. }
    destruct (drop 5 (ranking types)) as [|[t n] rest] eqn:Hdrop.
    + apply (f_equal length) in Hdrop. rewrite length_drop in Hdrop.
      simpl in Hdrop. lia.
    + apply Forall_cons in Hpos as [Hn _]. simpl in Hn, Happ. lia.
  - intros Hle. rewrite take_ge by lia. lia.
Qed.

Lemma top_5_counts_sum_witness :
  let errors := [mkError (KStr "SKU-00001") "price_too_low" [];
                 mkError (KStr "SKU-00001") "duplicate_sku" []] in
  exists m,
    calculate_metrics errors 3 = ret m /\
    Forall (fun issue => (0 < snd issue)%nat) (top_5_issues m) /\
    Z.of_nat (sum_counts (top_5_issues m)) <= total_errors m /\
    (Z.of_nat (sum_counts (top_5_issues m)) = total_errors m <->
     (length ["price_too_low"; "duplicate_sku"] <= 5)%nat).
Proof.
  intros errors.
  assert (exists m, calculate_metrics errors 3 = ret m) as [m Hm]
    by (vm_compute; eexists; reflexivity).
  exists m. split; [exact Hm|].
  apply (top_5_counts_sum errors 3 m ["price_too_low"; "duplicate_sku"]);
    [exact Hm| |].
  - apply (bool_decide_unpack _). vm_compute. exact I.
  - intros t. reflexivity.
Defined.

End AggregationFacts.

Section ScoreFacts.

Import Py Num Metrics Summary.

(** A negative or zero float is at most any non-negative one. *)
Lemma below_true_leb b eb x y :
  below true b eb x -> nonnegative y = true -> Float.leb x y = true.
Proof.
  intros Hx Hy.
  destruct x as [s|s| |s m e]; simpl in Hx; try done;
    destruct y as [s'|s'| |[] m' e']; try done.
  - by destruct Hx as (-> & _).
  - by destruct Hx as (-> & _).
Qed.

(** X11: for a positive [total_records] the score never exceeds 100, whatever
    the error list; it is not clamped from below: when the errors hold more
    distinct skus than [total_records], [valid_records] is negative and the
    score is at most 0. *)
Theorem score_at_most_100_and_not_clamped (errors : list error) (total : Z) :
  len errors < 2 ^ 63 -> 0 < total ->
  exists m score,
    calculate_metrics errors total = ret m /\
    data_integrity_score m = NFloat score /\
    Float.leb score (Float.of_Z 100) = true /\
    (total < invalid_records m ->
     valid_records m < 0 /\ Float.leb score (Float.of_Z 0) = true).
Proof.
  intros Hlen Hpos. unfold len in Hlen.
  pose proof (sku_set_size_le errors) as Hsize.
  set (invalid := Z.of_nat (size (sku_set errors))) in *.
  destruct (Z.le_gt_cases invalid total) as [Hle|Hgt].
  - destruct (metrics_bounds_of_size errors total Hpos Hle)
      as (m & score & Hm & Hscore & Hinv & _ & H100).
    destruct (calculate_metrics_inv _ _ _ Hm) as (Htotal & _).
    exists m, score. split_and!; try done. intros Hlt. lia.
  - assert (Hratio : ratio_le (Z.abs (total - invalid)) total (2 ^ 52) 11).
    { unfold ratio_le. change (Z.max 0 (Z.opp 11)) with 0. change (Z.max 0 11) with 11.
      change (2 ^ 0) with 1. change (2 ^ 52 * 2 ^ 11) with (2 ^ 63).
      assert (Hinv : 0 <= invalid < 2 ^ 63) by (unfold invalid; lia).
      clearbody invalid. revert Hinv. generalize (2 ^ 63). intros P HP. nia. }
    destruct (rounded_percentage_below (total - invalid) total
                (2 ^ 52) 11 (Zpos hundred) 17 (100 * 100 * 2 ^ 63)
                Hpos bound_2_63 Hratio bound_100_2_63
                ltac:(by vm_compute) ltac:(by vm_compute) ltac:(by vm_compute)
                ltac:(by vm_compute))
      as (r & Hr & Hbelow).
    replace (total - invalid <? 0) with true in Hbelow
      by (symmetry; apply Z.ltb_lt; lia).
    eexists _, r. split; [apply calculate_metrics_positive; eassumption|].
    simpl. split_and!; try done.
    + by eapply below_true_leb.
    + intros _. split; [lia|]. by eapply below_true_leb.
Qed.

Lemma score_at_most_100_and_not_clamped_witness :
  let errors := [mkError (KStr "SKU-00001") "price_too_low" [];
                 mkError (KStr "SKU-00002") "price_too_low" [];
                 mkError (KStr "SKU-00003") "price_too_low" []] in
  exists m score,
    calculate_metrics errors 2 = ret m /\
    data_integrity_score m = NFloat score /\
    Float.leb score (Float.of_Z 100) = true /\
    (2 < invalid_records m ->
     valid_records m < 0 /\ Float.leb score (Float.of_Z 0) = true).
Proof.
  intros errors.
  apply (score_at_most_100_and_not_clamped errors 2); reflexivity.
Defined.



End ScoreFacts.

Section ReadableFacts.

Import Summary.

Lemma upper_not_underscore c :
  Builtins.is_underscore c = false -> Builtins.is_underscore (upper c) = false.
Proof. destruct c as [[] [] [] [] [] [] [] []]; vm_compute; congruence. Qed.

Lemma lower_not_underscore c :
  Builtins.is_underscore c = false ->
  Builtins.is_underscore (Builtins.lower c) = false.
Proof. destruct c as [[] [] [] [] [] [] [] []]; vm_compute; congruence. Qed.

Lemma title_from_length l : forall cased,
  length (title_from cased l) = length l.
Proof.
  induction l as [|c l IH]; intros cased; [done|]. simpl.
  destruct (is_upper c || is_lower c); simpl; by rewrite IH.
Qed.

Lemma title_from_no_underscore l : forall cased,
  forallb (fun c => negb (Builtins.is_underscore c)) l = true ->
  forallb (fun c => negb (Builtins.is_underscore c)) (title_from cased l) = true.
Proof.
  induction l as [|c l IH]; intros cased; [done|]. simpl.
  intros [Hc Hl]%andb_true_iff. apply negb_true_iff in Hc.
  destruct (is_upper c || is_lower c); simpl; rewrite IH by done;
    [|by rewrite Hc].
  destruct cased; [rewrite lower_not_underscore|rewrite upper_not_underscore];
    done.
Qed.

Lemma replace_underscores_none l :
  forallb (fun c => negb (Builtins.is_underscore c)) (replace_underscores l) = true.
Proof.
  unfold replace_underscores. induction l as [|c l IH]; [done|]. simpl.
  rewrite IH. destruct (Builtins.is_underscore c) eqn:Hc; [done|].
  by rewrite Hc.
Qed.

Lemma string_length_chars s : String.length s = length (Re.chars s).
Proof. unfold Re.chars. induction s as [|c s IH]; simpl; congruence. Qed.

(** X13: the readable name the summary shows for an issue type has as many
    characters as the issue type and no underscore. *)
Theorem readable_issue_has_no_underscore (issue_type : string) :
  String.length (readable issue_type) = String.length issue_type /\
  forallb (fun c => negb (Builtins.is_underscore c))
    (Re.chars (readable issue_type)) = true.
Proof.
  unfold readable. split.
  - rewrite !string_length_chars. unfold Re.chars at 1.
    rewrite list_ascii_of_string_of_list_ascii.
    rewrite title_from_length. unfold replace_underscores. apply length_map.
  - unfold Re.chars at 1. rewrite list_ascii_of_string_of_list_ascii.
    apply title_from_no_underscore, replace_underscores_none.
Qed.

End ReadableFacts.

Section LegacyFacts.

Import BasicMetrics.

Lemma compute_basic_metrics_foldl results : forall st,
  foldl body st results =
  mkBasic (total st + Z.of_nat (length results))
          (passed st + Z.of_nat (length (List.filter is_pass results)))
          (failed st + Z.of_nat (length (List.filter (fun r => negb (is_pass r)) results))).
Proof.
  induction results as [|r results IH]; intros [t p f]; simpl.
  - f_equal; lia.
  - rewrite IH. unfold body. simpl.
    destruct (is_pass r); simpl; f_equal; lia.
Qed.

(** X14: [compute_basic_metrics] counts every element once: [total] is the
    number of elements, [passed] the number of non-empty tuples whose first
    item is true, and [passed + failed = total]. *)
Theorem compute_basic_metrics_counts (results : list entry) :
  total (compute_basic_metrics results) = Num.len results /\
  passed (compute_basic_metrics results) =
    Z.of_nat (length (List.filter is_pass results)) /\
  passed (compute_basic_metrics results) + failed (compute_basic_metrics results)
  = total (compute_basic_metrics results).
Proof.
  unfold compute_basic_metrics. rewrite compute_basic_metrics_foldl. simpl.
  unfold Num.len. split; [done|]. split; [done|].
  induction results as [|r results IH]; [done|]. simpl.
  destruct (is_pass r); simpl; lia.
Qed.

End LegacyFacts.

(** ** The dashboard *)

Section DashboardFacts.

Import Py Num Metrics Dashboard.






Lemma trunc_below_negative b eb x : below true b eb x -> Float.trunc x <= 0.
Proof.
  destruct x as [s'|s'| |s' m e]; simpl; try done.
  intros (-> & _ & _). destruct e as [|e|e].
  - rewrite Z.shiftl_0_r. lia.
  - pose proof (Z.shiftl_nonneg (Z.pos m) (Z.pos e)). lia.
  - pose proof (Z.shiftr_nonneg (Z.pos m) (Z.pos e)). lia.
Qed.





















(** The quotient of a positive integer by itself is exactly 1. *)
Lemma of_ratio_self p : Float.of_ratio false p p = one.
Proof.
  unfold Float.of_ratio, SFdiv_core_binary.
  replace (Zdigits2 (Z.pos p) + 0 - (Zdigits2 (Z.pos p) + 0)) with 0 by lia.
  change (Z.min (fexp Float.prec Float.emax 0) (0 - 0)) with (-53).
  change (0 - 0 - -53) with 53. cbv beta iota zeta.
  rewrite Z.shiftl_mul_pow2 by lia.
  pose proof (Z.div_eucl_eq (Z.pos p * 2 ^ 53) (Z.pos p) ltac:(lia)) as Hdiv.
  pose proof (Z.mod_pos_bound (Z.pos p * 2 ^ 53) (Z.pos p) ltac:(lia)) as Hmod.
  unfold Z.modulo in Hmod.
  destruct (Z.div_eucl (Z.pos p * 2 ^ 53) (Z.pos p)) as [q r].
  assert (r = 0 /\ q = 2 ^ 53) as [-> ->].
  { assert (Z.pos p * (2 ^ 53 - q) = r) as Hr by lia.
    assert (2 ^ 53 - q = 0 \/ 2 ^ 53 - q <= -1 \/ 1 <= 2 ^ 53 - q)
      as [H|[H|H]] by lia; nia. }
  unfold new_location. destruct (Z.even (Z.pos p)); reflexivity.
Qed.

Lemma of_list_uniform (t : string) (l : list string) :
  l <> [] -> Forall (fun x => x = t) l ->
  IssueCounter.of_list l = [(t, length l)].
Proof.
  unfold IssueCounter.of_list.
  induction l as [|x l IH] using rev_ind; [done|].
  intros _ [Hl Hx]%Forall_app. apply Forall_cons in Hx as [-> _].
  rewrite foldl_snoc, length_app. simpl.
  destruct l as [|y l]; [done|].
  rewrite IH by done. simpl. rewrite decide_True by done.
  do 2 f_equal. lia.
Qed.

Lemma percentage_self (c : Z) :
  0 < c -> Summary.percentage c c = ret (NFloat (Float.of_Z 100)).
Proof.
  intros Hc. unfold Summary.percentage.
  replace (0 <? c) with true by (symmetry; apply Z.ltb_lt; lia).
  destruct c as [|p|p]; try lia.
  unfold truediv. cbn [Z.ltb Z.compare xorb Z.abs Z.to_pos].
  rewrite of_ratio_self. reflexivity.
Qed.

Lemma bar_of_100 :
  bar 10 (NFloat (Float.of_Z 100)) = ret "####################".
Proof. by vm_compute. Qed.

(** X16: when all the errors have the same issue type, the dashboard lists that
    issue alone at 100 percent and its bar is 20 "#" long, twice the 10
    characters the bar of an issue is padded to. *)
Theorem single_issue_bar_is_twice_as_wide
    (errors : list error) (total : Z) (m : metrics) (t : string) :
  errors <> [] -> Forall (fun e => issue_type e = t) errors ->
  calculate_metrics errors total = ret m ->
  top_5_issues m = [(t, length errors)] /\
  issue_line (total_errors m) 1 (t, length errors)
  = ret (full_issue_line 1 t (length errors)).
Proof.
  intros Hne Hall Hm.
  destruct (calculate_metrics_inv _ _ _ Hm) as (_ & _ & _ & -> & ->).
  split.
  - unfold ranking. rewrite (of_list_uniform t).
    + by rewrite length_map.
    + by destruct errors.
    + by apply Forall_map.
  - unfold issue_line, len. rewrite percentage_self.
    + unfold bind, ret. rewrite bar_of_100. reflexivity.
    + destruct errors; [done|simpl; lia].
Qed.

Lemma single_issue_bar_is_twice_as_wide_witness :
  let errors := [mkError (KStr "SKU-00001") "price_too_low" [];
                 mkError (KStr "SKU-00002") "price_too_low" []] in
  exists m,
    calculate_metrics errors 8 = ret m /\
    top_5_issues m = [("price_too_low", length errors)] /\
    issue_line (total_errors m) 1 ("price_too_low", length errors)
    = ret (full_issue_line 1 "price_too_low" (length errors)).
Proof.
  intros errors.
  assert (exists m, calculate_metrics errors 8 = ret m) as [m Hm]
    by (vm_compute; eexists; reflexivity).
  exists m. split; [exact Hm|].
  apply (single_issue_bar_is_twice_as_wide errors 8 m "price_too_low");
    [discriminate|by repeat constructor|exact Hm].
Defined.

End DashboardFacts.

(** ** The AI summary *)

Section AiFacts.

Import Ai AiInputs.


(** X18: the prompt main.py builds from the dict of [calculate_metrics] always
    shows "unknown" as the invalid record percentage, since that dict has no
    [invalid_pct] key; the other five figures are those of the metrics, of
    the two queries and of the error list. *)
Theorem pipeline_prompt_has_unknown_invalid_pct
    (m : Metrics.metrics) (all_errors : list error) (duplicates high_price : Z) :
  interpolated
    (build_prompt (metrics_dict m)
       (AiInputs.sql_insights duplicates high_price all_errors)
       (AiInputs.validation_summary m))
  = [ONum (Py.NInt (Metrics.total_records m));
     OStr "unknown";
     OList (map (fun issue => OStr (fst issue)) (Metrics.top_5_issues m));
     ONum (Py.NInt duplicates);
     ONum (Py.NInt high_price);
     ONum (Py.NInt (low_inventory_warnings all_errors))].
Proof. reflexivity. Qed.

(** X19: once a key is available, a response without choices, or with an empty
    list of them, makes [generate_ai_summary] raise [RuntimeError]; a
    response, dict or object, whose first choice is a dict holding a message
    dict with a string content makes it return that content stripped. *)
Theorem ai_summary_of_response
    (key : string) (create : string -> list piece -> result obj)
    (metrics sql_insights validation_summary : gmap string obj)
    (fields : list (string * obj)) (as_dict : bool) :
  key <> "" ->
  create key (build_prompt metrics sql_insights validation_summary)
  = inr (if as_dict then ODict fields else OObject fields) ->
  ((lookup_item "choices" fields = None \/
    lookup_item "choices" fields = Some (OList [])) ->
   generate_ai_summary (Some key) None create metrics sql_insights validation_summary
   = inl (RuntimeError "No completion choices returned from OpenAI")) /\
  (forall choice rest message content,
     lookup_item "choices" fields = Some (OList (ODict choice :: rest)) ->
     lookup_item "message" choice = Some (ODict message) ->
     lookup_item "content" message = Some (OStr content) ->
     generate_ai_summary (Some key) None create metrics sql_insights validation_summary
     = inr (strip content)).
Proof.
  intros Hkey Hcreate. apply String.eqb_neq in Hkey.
  unfold generate_ai_summary, select_key. rewrite Hkey. cbn beta iota.
  rewrite Hkey, Hcreate. unfold bind, extract_content. split.
  - intros [Hnone|Hempty]; destruct as_dict; by rewrite ?Hnone, ?Hempty.
  - intros choice rest message content Hchoices Hmessage Hcontent.
    destruct as_dict; rewrite Hchoices; simpl;
      rewrite Hmessage; simpl; by rewrite Hcontent.
Qed.

Lemma ai_summary_of_response_witness :
  let create := fun (_ : string) (_ : list piece) =>
    inr (OObject [("choices",
                   OList [ODict [("message",
                                  ODict [("content",
                                          OStr " Executive summary text. ")])]])])
    : result obj in
  generate_ai_summary (Some "fake-key") None create ∅ ∅ ∅
  = inr "Executive summary text.".
Proof.
  intros create.
  destruct (ai_summary_of_response "fake-key" create ∅ ∅ ∅
              [("choices",
                OList [ODict [("message",
                               ODict [("content",
                                       OStr " Executive summary text. ")])]])]
              false ltac:(discriminate) ltac:(reflexivity)) as [_ Hcontent].
  eapply (Hcontent _ _ _ " Executive summary text. "); reflexivity.
Defined.


End AiFacts.
